(** * AuditFlow AI: workflow generation, step updates and risk scoring

    A shallow embedding of [src/main.py] and [src/schemas.py]: the
    workflow templates ([gst_workflow_template],
    [generic_workflow_template]), the builder
    ([build_workflow_for_client]), the step status endpoint
    ([update_step_status]) and the predictive tracker
    ([predictive_clients]), followed by the properties the specification
    states about them.

    Conventions of the embedding.
    - Python [int] is [Z]; [len] is [Z.of_nat (length _)].
    - Python [str] is [string], read as UTF-8 text; [str.lower] is
      modelled on the ASCII letters, which decides the same substring
      tests for ASCII needles: no other character lowers to an ASCII
      letter of "gst".
    - A naive [datetime] is the number of microseconds since
      0001-01-01T00:00:00 (a [Z]); [timedelta(days=n)] is [n] days in
      microseconds.  The MAXYEAR bound of the datetime module is outside
      the model.
    - A Python [dict] read with [.get] is a [gmap string _].
    - A MongoDB collection is the list of its documents in natural
      order; documents are kept as they are handed to the driver.  The
      collections are reached as the code reaches them: [db.workflow]
      and [db.document] are collections, [db.client] is the client
      object of the driver.
    - [datetime.utcnow()] reads the next value of a clock oracle carried
      by the world, so successive readings may differ.
    - Exceptions are the [Raise] results of a state-and-error monad. *)

From Stdlib Require Import ZArith String Ascii List Bool Lia.
From stdpp Require Import base option gmap strings list.

Local Open Scope string_scope.
Local Open Scope Z_scope.
Local Open Scope list_scope.

(** ** Python strings *)

Module PyStr.

Definition is_upper (c : ascii) : bool :=
  let n := N_of_ascii c in (65 <=? n)%N && (n <=? 90)%N.

(** [c.lower()] for one character. *)
Definition lower_ascii (c : ascii) : ascii :=
  if is_upper c then ascii_of_N (N_of_ascii c + 32) else c.

(** [s.lower()] *)
Fixpoint lower (s : string) : string :=
  match s with
  | EmptyString => EmptyString
  | String c s' => String (lower_ascii c) (lower s')
  end.

(** [hay.startswith(needle)] *)
Fixpoint startswith (needle hay : string) : bool :=
  match needle, hay with
  | EmptyString, _ => true
  | String _ _, EmptyString => false
  | String a n', String b h' => if Ascii.eqb a b then startswith n' h' else false
  end.

(** [needle in hay] *)
Fixpoint contains (needle hay : string) : bool :=
  startswith needle hay ||
  match hay with
  | EmptyString => false
  | String _ h' => contains needle h'
  end.

Definition is_hex_digit (c : ascii) : bool :=
  let n := N_of_ascii c in
  ((48 <=? n) && (n <=? 57) || (65 <=? n) && (n <=? 70) || (97 <=? n) && (n <=? 102))%N.

Fixpoint all_hex (s : string) : bool :=
  match s with
  | EmptyString => true
  | String c s' => is_hex_digit c && all_hex s'
  end.

End PyStr.

(** ** datetime *)

Module datetime.

(** Microseconds since 0001-01-01T00:00:00. *)
Definition t := Z.

Definition us_per_day : Z := 86400 * 1000000.

(** [timedelta(days=n)] *)
Definition timedelta (days : Z) : Z := days * us_per_day.

Definition is_leap (y : Z) : bool :=
  (y mod 4 =? 0) && (negb (y mod 100 =? 0) || (y mod 400 =? 0)).

Definition days_before_year (y : Z) : Z :=
  let p := y - 1 in p * 365 + p / 4 - p / 100 + p / 400.

Definition days_in_month (y m : Z) : Z :=
  if m =? 2 then (if is_leap y then 29 else 28)
  else if (m =? 4) || (m =? 6) || (m =? 9) || (m =? 11) then 30 else 31.

Fixpoint days_before_month_aux (y : Z) (n : nat) : Z :=
  match n with
  | O => 0
  | S k => days_before_month_aux y k + days_in_month y (Z.of_nat n)
  end.

(** Number of days in year [y] before the first day of month [m]. *)
Definition days_before_month (y m : Z) : Z :=
  days_before_month_aux y (Z.to_nat (m - 1)).

(** Proleptic Gregorian ordinal, 0001-01-01 being day 1. *)
Definition ymd2ord (y m d : Z) : Z :=
  days_before_year y + days_before_month y m + d.

(** [datetime(y, m, d, hh, mm, ss)] *)
Definition make (y m d hh mm ss : Z) : t :=
  (ymd2ord y m d - 1) * us_per_day + ((hh * 60 + mm) * 60 + ss) * 1000000.

End datetime.

(** ** bson.ObjectId

    An [ObjectId] is represented by its canonical text, the 24 lowercase
    hexadecimal digits that [str] prints. *)

Definition ObjectId := string.

Definition ObjectId_parse (id_str : string) : option ObjectId :=
  if (Nat.eqb (String.length id_str) 24) && PyStr.all_hex id_str
  then Some (PyStr.lower id_str) else None.

Definition ObjectId_str (o : ObjectId) : string := o.

(** ** Documents and models *)

(** Values of the string-typed client fields: [None] or a [str]. *)
Inductive pyopt :=
| PyNone
| PyStr (s : string).

(** Values stored in a workflow step or in the scalar fields of a
    stored document. *)
Inductive value :=
| VNone
| VStr (s : string)
| VDatetime (d : datetime.t)
| VStrList (l : list string).

#[global] Instance pyopt_eq_dec : EqDecision pyopt.
Proof. solve_decision. Defined.

#[global] Instance value_eq_dec : EqDecision value.
Proof. solve_decision. Defined.

(** A document of the [client] collection. *)
Record client_doc := {
  cd_id : ObjectId;
  cd_fields : gmap string pyopt
}.

(** A step as stored inside a workflow document. *)
Abbreviation step_doc := (gmap string value).

(** A document of the [workflow] collection; [wd_steps] is [None] when
    the document has no ["steps"] key. *)
Record workflow_doc := {
  wd_id : ObjectId;
  wd_fields : gmap string value;
  wd_steps : option (list step_doc)
}.

(** A document of the [document] collection. *)
Record document_doc := {
  dd_id : ObjectId;
  dd_fields : gmap string value
}.

(** [schemas.WorkflowStep] *)
Record WorkflowStep := {
  key : string;
  title : string;
  description : option string;
  category : string;
  required_documents : list string;
  assigned_to : option string;
  due_date : option datetime.t;
  status : string;
  dependencies : list string
}.

(** [schemas.Workflow] *)
Record Workflow := {
  client_id : string;
  client_type : string;
  fiscal_year : option string;
  version : string;
  steps : list WorkflowStep
}.

(** ** The world: clock and database *)

Record world := {
  clock : nat -> datetime.t;
  ticks : nat;
  db_client : list client_doc;
  db_workflow : list workflow_doc;
  db_document : list document_doc
}.

Inductive exn :=
| HTTPException (status_code : Z) (detail : string)
| ValidationError (model field : string)
| TypeError (message : string).

Inductive result (A : Type) :=
| Ok (a : A)
| Raise (e : exn).

Arguments Ok {A} a.
Arguments Raise {A} e.

Definition M (A : Type) : Type := world -> result A * world.

Definition ret {A} (a : A) : M A := fun w => (Ok a, w).

Definition raise {A} (e : exn) : M A := fun w => (Raise e, w).

Definition bind {A B} (m : M A) (f : A -> M B) : M B :=
  fun w =>
    match m w with
    | (Ok a, w') => f a w'
    | (Raise e, w') => (Raise e, w')
    end.

Definition lift {A} (r : result A) : M A := fun w => (r, w).

Declare Scope py_scope.
Delimit Scope py_scope with py.
Notation "x <- m ;; k" := (bind m (fun x => k))
  (at level 100, m at next level, right associativity) : py_scope.
Notation "m ;;; k" := (bind m (fun _ => k))
  (at level 100, right associativity) : py_scope.
Local Open Scope py_scope.

(** [datetime.utcnow()] *)
Definition utcnow : M datetime.t :=
  fun w =>
    (Ok (clock w (ticks w)),
     {| clock := clock w; ticks := S (ticks w); db_client := db_client w;
        db_workflow := db_workflow w; db_document := db_document w |}).

Definition get_world : M world := fun w => (Ok w, w).

Definition set_db_workflow (c : list workflow_doc) : M unit :=
  fun w =>
    (Ok tt,
     {| clock := clock w; ticks := ticks w; db_client := db_client w;
        db_workflow := c; db_document := db_document w |}).

(** ** Dictionary access *)

(** [d.get(k)] on a client document. *)
Definition client_get (client : client_doc) (k : string) : pyopt :=
  default PyNone (cd_fields client !! k).

(** [d.get(k, dflt)] on a client document. *)
Definition client_get_default (client : client_doc) (k : string) (dflt : pyopt) : pyopt :=
  default dflt (cd_fields client !! k).

(** [v or dflt] for a value that is [None] or a [str]: the empty string
    is falsy, like [None]. *)
Definition py_or (v : pyopt) (dflt : string) : string :=
  match v with
  | PyNone => dflt
  | PyStr EmptyString => dflt
  | PyStr s => s
  end.

(** ** Dynamic workflow mapping *)

(** The [WorkflowStep(...)] constructor with the keyword arguments the
    templates pass; [assigned_to] and [status] take the defaults of the
    schema. *)
Definition new_WorkflowStep (k ttl cat : string) (req : list string)
    (descr : option string) (deps : list string) (due : datetime.t) : WorkflowStep :=
  {| key := k; title := ttl; description := descr; category := cat;
     required_documents := req; assigned_to := None; due_date := Some due;
     status := "todo"; dependencies := deps |}.

Definition gst_workflow_template (client : client_doc) : M (list WorkflowStep) :=
  let fy := py_or (client_get client "fiscal_year") "Current FY" in
  today <- utcnow ;;
  let base_due := today + datetime.timedelta 14 in
  ret [
    new_WorkflowStep "collect_gstr" "Collect GSTR-1, GSTR-3B, GSTR-2B" "documents"
      ["GSTR-1"; "GSTR-3B"; "GSTR-2B"]
      (Some ("Collect GST returns for " +:+ fy)) [] base_due;
    new_WorkflowStep "reconcile_ledgers" "Reconcile sales/purchase ledgers with GST"
      "verification" ["Sales Ledger"; "Purchase Ledger"]
      None ["collect_gstr"] (base_due + datetime.timedelta 7);
    new_WorkflowStep "variance_analysis" "Variance and anomaly analysis" "analysis"
      [] None ["reconcile_ledgers"] (base_due + datetime.timedelta 12);
    new_WorkflowStep "draft_report" "Draft GST Audit Report" "reporting"
      [] None ["variance_analysis"] (base_due + datetime.timedelta 18);
    new_WorkflowStep "partner_signoff" "Partner Sign-off" "signoff"
      [] None ["draft_report"] (base_due + datetime.timedelta 20)
  ].

Definition generic_workflow_template (client : client_doc) : M (list WorkflowStep) :=
  today <- utcnow ;;
  ret [
    new_WorkflowStep "kickoff" "Engagement kickoff & document request" "documents"
      [] None [] (today + datetime.timedelta 7);
    new_WorkflowStep "fieldwork" "Fieldwork and tests" "analysis"
      [] None ["kickoff"] (today + datetime.timedelta 14);
    new_WorkflowStep "draft" "Draft report" "reporting"
      [] None ["fieldwork"] (today + datetime.timedelta 20);
    new_WorkflowStep "signoff" "Final sign-off" "signoff"
      [] None ["draft"] (today + datetime.timedelta 22)
  ].

(** The [Workflow(...)] constructor: [client_type] is a required [str]
    field, so [None] is rejected; [fiscal_year] is [Optional[str]]. *)
Definition new_Workflow (cid : string) (ctype fy : pyopt) (ver : string)
    (stps : list WorkflowStep) : result Workflow :=
  match ctype with
  | PyNone => Raise (ValidationError "Workflow" "client_type")
  | PyStr ct =>
      Ok {| client_id := cid; client_type := ct;
            fiscal_year := match fy with PyNone => None | PyStr s => Some s end;
            version := ver; steps := stps |}
  end.

Definition build_workflow_for_client (client : client_doc) : M Workflow :=
  let ctype := PyStr.lower (py_or (client_get client "client_type") "") in
  stps <- (if PyStr.contains "gst" ctype
           then gst_workflow_template client
           else generic_workflow_template client) ;;
  lift (new_Workflow (ObjectId_str (cd_id client))
          (client_get_default client "client_type" (PyStr ""))
          (client_get client "fiscal_year")
          "v1" stps).

(** ** Utilities *)

(** [oid(id_str)] *)
Definition oid (id_str : string) : M ObjectId :=
  match ObjectId_parse id_str with
  | Some o => ret o
  | None => raise (HTTPException 400 "Invalid id")
  end.

(** [serialize(doc)] on a client document, which always holds ["_id"]
    and so is never empty: ["_id"] is popped and re-inserted under
    ["id"] as text. *)
Definition serialize (doc : client_doc) : gmap string pyopt :=
  <["id" := PyStr (ObjectId_str (cd_id doc))]> (cd_fields doc).

(** [v == s] for a looked-up value [v] and a [str] [s]. *)
Definition value_eq_str (v : value) (s : string) : bool :=
  match v with
  | VStr x => String.eqb x s
  | _ => false
  end.

(** ** MongoDB operations *)

(** [db.workflow.find_one({"_id": o})] *)
Definition find_one_workflow (coll : list workflow_doc) (o : ObjectId) : option workflow_doc :=
  List.find (fun d => String.eqb (wd_id d) o) coll.

(** [db.workflow.update_one({"_id": o}, {"$set": {"steps": stps}})] on
    the collection. *)
Fixpoint update_one_set_steps (o : ObjectId) (stps : list step_doc)
    (coll : list workflow_doc) : list workflow_doc :=
  match coll with
  | [] => []
  | d :: rest =>
      if String.eqb (wd_id d) o
      then {| wd_id := wd_id d; wd_fields := wd_fields d; wd_steps := Some stps |} :: rest
      else d :: update_one_set_steps o stps rest
  end.

(** The equality filter [{"client_id": cid}]: a string field equal to
    [cid], or an array field holding it. *)
Definition matches_client_id (fields : gmap string value) (cid : string) : bool :=
  match fields !! "client_id" with
  | Some (VStr x) => String.eqb x cid
  | Some (VStrList l) => existsb (fun x => String.eqb x cid) l
  | _ => false
  end.

(** ** Step status update *)

(** The [for s in wf.get("steps", [])] loop of [update_step_status]:
    the first step whose key matches is mutated in place and the loop
    breaks.  Returns the [updated] flag and the steps list after the
    loop. *)
Fixpoint update_steps_loop (step_key body_status : string) (l : list step_doc)
    : M (bool * list step_doc) :=
  match l with
  | [] => ret (false, [])
  | s :: rest =>
      if value_eq_str (default VNone (s !! "key")) step_key then
        now <- utcnow ;;
        ret (true, <["updated_at" := VDatetime now]> (<["status" := VStr body_status]> s) :: rest)
      else
        r <- update_steps_loop step_key body_status rest ;;
        ret (r.1, s :: r.2)
  end.

(** The response [{"ok": True}]. *)
Record ok_response := { ok : bool }.

Definition update_step_status (workflow_id step_key body_status : string) : M ok_response :=
  o <- oid workflow_id ;;
  w <- get_world ;;
  match find_one_workflow (db_workflow w) o with
  | None => raise (HTTPException 404 "Workflow not found")
  | Some wf =>
      r <- update_steps_loop step_key body_status (default [] (wd_steps wf)) ;;
      if negb r.1 then raise (HTTPException 404 "Step not found")
      else
        set_db_workflow (update_one_set_steps (wd_id wf) r.2 (db_workflow w)) ;;;
        ret {| ok := true |}
  end.

(** ** Predictive client tracker *)

(** Body of the inner loop: one step of one workflow. *)
Definition overdue_step (s : step_doc) (overdue : Z) : M Z :=
  let due := default VNone (s !! "due_date") in
  let st := default (VStr "todo") (s !! "status") in
  match due with
  | VDatetime d =>
      now <- utcnow ;;
      if (d <? now) && negb (value_eq_str st "done")
      then ret (overdue + 15) else ret overdue
  | _ => ret overdue
  end.

(** [for s in wf.get("steps", [])] *)
Fixpoint overdue_steps (l : list step_doc) (overdue : Z) : M Z :=
  match l with
  | [] => ret overdue
  | s :: rest => o <- overdue_step s overdue ;; overdue_steps rest o
  end.

(** [for wf in wfs] *)
Fixpoint overdue_workflows (wfs : list workflow_doc) (overdue : Z) : M Z :=
  match wfs with
  | [] => ret overdue
  | wf :: rest =>
      o <- overdue_steps (default [] (wd_steps wf)) overdue ;;
      overdue_workflows rest o
  end.

(** One entry of the response of [predictive_clients]. *)
Record risk_item := {
  ri_client : gmap string pyopt;
  risk_score : Z;
  risk_level : string;
  documents : Z;
  open_workflows : Z
}.

(** [len(l)] *)
Definition len {A} (l : list A) : Z := Z.of_nat (length l).

(** Body of the [for c in clients] loop. *)
Definition predictive_client (c : client_doc) : M risk_item :=
  w <- get_world ;;
  let cid := ObjectId_str (cd_id c) in
  let docs := List.filter (fun d => matches_client_id (dd_fields d) cid) (db_document w) in
  let wfs := List.filter (fun d => matches_client_id (wd_fields d) cid) (db_workflow w) in
  let missing_docs_penalty := Z.max 0 (5 - len docs) * 10 in
  overdue <- overdue_workflows wfs 0 ;;
  let score := Z.min 100 (50 + missing_docs_penalty + overdue) in
  let risk := if 85 <=? score then "high"
              else if 70 <=? score then "medium" else "low" in
  ret {| ri_client := serialize c; risk_score := score; risk_level := risk;
         documents := len docs; open_workflows := len wfs |}.

Fixpoint predictive_loop (clients : list client_doc) (out : list risk_item)
    : M (list risk_item) :=
  match clients with
  | [] => ret out
  | c :: rest =>
      item <- predictive_client c ;;
      predictive_loop rest (out ++ [item])
  end.

(** A call [db.client.method(...)].  [db] is the pymongo [Database]
    (the code calls [db.list_collection_names()] and reaches the other
    collections as [db.workflow], [db.document]); its attribute [client]
    is the [MongoClient] that owns it, not the collection named
    "client".  An attribute of the client is the database of that name,
    and calling a database raises [TypeError]. *)
Definition db_client_call {A} (method : string) : M A :=
  raise (TypeError ("'Database' object is not callable. If you meant to call the '"
                    +:+ method
                    +:+ "' method on a 'MongoClient' object it is failing because no such method exists.")).

Definition predictive_clients : M (list risk_item) :=
  clients <- db_client_call "find" ;;
  predictive_loop clients [].

(** ** Vocabulary of the specification *)

(** [s] holds the letters g, s, t in a row, in either case. *)
Definition contains_gst_ci (s : string) : Prop :=
  exists (pre : string) (a b c : ascii) (post : string),
    s = pre +:+ String a (String b (String c post)) /\
    (a = "g"%char \/ a = "G"%char) /\
    (b = "s"%char \/ b = "S"%char) /\
    (c = "t"%char \/ c = "T"%char).

(** The text of the client's [client_type]: empty when the key is
    absent. *)
Definition client_type_text (client : client_doc) : string :=
  match cd_fields client !! "client_type" with
  | Some (PyStr s) => s
  | _ => ""
  end.

(** The client's [client_type] is absent or a string, as the [Client]
    schema has it. *)
Definition client_type_ok (client : client_doc) : Prop :=
  cd_fields client !! "client_type" <> Some PyNone.

Definition gst_keys : list string :=
  ["collect_gstr"; "reconcile_ledgers"; "variance_analysis"; "draft_report";
   "partner_signoff"].

Definition generic_keys : list string :=
  ["kickoff"; "fieldwork"; "draft"; "signoff"].

(** The world after one reading of the clock. *)
Definition advance (w : world) : world :=
  {| clock := clock w; ticks := S (ticks w); db_client := db_client w;
     db_workflow := db_workflow w; db_document := db_document w |}.

(** The reading [utcnow] returns in world [w]. *)
Definition reading (w : world) : datetime.t := clock w (ticks w).

(** Every dependency of a step is the key of a step earlier in the
    list. *)
Definition deps_precede (l : list WorkflowStep) : Prop :=
  forall (i : nat) (s : WorkflowStep) (d : string),
    l !! i = Some s -> In d (dependencies s) ->
    exists (j : nat) (s' : WorkflowStep),
      (j < i)%nat /\ l !! j = Some s' /\ key s' = d.

(** No step is a dependency of itself or of an earlier step. *)
Definition deps_forward_only (l : list WorkflowStep) : Prop :=
  forall (i j : nat) (s s' : WorkflowStep),
    l !! i = Some s -> l !! j = Some s' -> In (key s') (dependencies s) ->
    (j < i)%nat.

(** Due dates never decrease along the list. *)
Definition due_dates_nondecreasing (l : list WorkflowStep) : Prop :=
  forall (i j : nat) (s s' : WorkflowStep),
    (i <= j)%nat -> l !! i = Some s -> l !! j = Some s' ->
    exists d d', due_date s = Some d /\ due_date s' = Some d' /\ d <= d'.

(** Key and due date of every step, in order. *)
Definition schedule (l : list WorkflowStep) : list (string * option datetime.t) :=
  map (fun s => (key s, due_date s)) l.

(** The step of [l] with key [k], if any. *)
Definition step_by_key (k : string) (l : list WorkflowStep) : option WorkflowStep :=
  List.find (fun s => String.eqb (key s) k) l.

(** ** Vocabulary of the step update *)

(** The stored step [s] has key [k]. *)
Definition has_key (k : string) (s : step_doc) : Prop :=
  s !! "key" = Some (VStr k).

(** The step after its status is set to [st] at time [now]. *)
Definition with_status (st : string) (now : datetime.t) (s : step_doc) : step_doc :=
  <["updated_at" := VDatetime now]> (<["status" := VStr st]> s).

(** The workflow document with its steps replaced. *)
Definition with_steps (wf : workflow_doc) (l : list step_doc) : workflow_doc :=
  {| wd_id := wd_id wf; wd_fields := wd_fields wf; wd_steps := Some l |}.

Definition StepNotFound : exn := HTTPException 404 "Step not found".

Definition WorkflowNotFound : exn := HTTPException 404 "Workflow not found".

(** ** Vocabulary of the risk score *)

(** The stored [due_date] of the step is a datetime before [now]. *)
Definition due_before (now : datetime.t) (s : step_doc) : bool :=
  match s !! "due_date" with
  | Some (VDatetime d) => d <? now
  | _ => false
  end.

(** The stored [status] of the step is "done". *)
Definition is_done (s : step_doc) : bool :=
  match s !! "status" with
  | Some (VStr x) => String.eqb x "done"
  | _ => false
  end.

(** The step is due before [now] and not done. *)
Definition overdue_incomplete (now : datetime.t) (s : step_doc) : bool :=
  due_before now s && negb (is_done s).

(** The documents of client [c]. *)
Definition client_documents (w : world) (c : client_doc) : list document_doc :=
  List.filter (fun d => matches_client_id (dd_fields d) (ObjectId_str (cd_id c)))
    (db_document w).

(** The workflows of client [c]. *)
Definition client_workflows (w : world) (c : client_doc) : list workflow_doc :=
  List.filter (fun d => matches_client_id (wd_fields d) (ObjectId_str (cd_id c)))
    (db_workflow w).

(** The steps of all workflows in [wfs]. *)
Definition all_steps (wfs : list workflow_doc) : list step_doc :=
  concat (map (fun wf => default [] (wd_steps wf)) wfs).

Definition document_count (w : world) (c : client_doc) : Z :=
  len (client_documents w c).

Definition overdue_count (now : datetime.t) (w : world) (c : client_doc) : Z :=
  len (List.filter (overdue_incomplete now) (all_steps (client_workflows w c))).

Definition missing_docs_penalty (n : Z) : Z := Z.max 0 (5 - n) * 10.

Definition overdue_penalty (now : datetime.t) (w : world) (c : client_doc) : Z :=
  15 * overdue_count now w c.

(** From world [w] on, every reading of the clock stands to the stored
    [due_date] of step [s] as [now] does. *)
Definition agrees (now : datetime.t) (w : world) (s : step_doc) : Prop :=
  forall (n : nat) (d : datetime.t),
    (ticks w <= n)%nat -> s !! "due_date" = Some (VDatetime d) ->
    (d <? clock w n) = (d <? now).

(** [now] is the time of the request: no stored due date lies between
    [now] and a reading of the clock taken from world [w] on.  A clock
    that reads [now] throughout is the plain case. *)
Definition clock_reads (now : datetime.t) (w : world) : Prop :=
  forall (wf : workflow_doc) (s : step_doc),
    In wf (db_workflow w) -> In s (default [] (wd_steps wf)) -> agrees now w s.

(** [w'] is [w] after some readings of the clock: same clock, same
    database. *)
Definition later (w w' : world) : Prop :=
  clock w' = clock w /\ (ticks w <= ticks w')%nat /\
  db_client w' = db_client w /\ db_workflow w' = db_workflow w /\
  db_document w' = db_document w.

(** [item] is the entry the risk rules give client [c] at time [now]. *)
Definition scored (now : datetime.t) (w : world) (c : client_doc)
    (item : risk_item) : Prop :=
  ri_client item = serialize c /\
  risk_score item =
    Z.min 100 (50 + missing_docs_penalty (document_count w c) + overdue_penalty now w c) /\
  (risk_level item = "high" <-> 85 <= risk_score item) /\
  (risk_level item = "medium" <-> 70 <= risk_score item < 85) /\
  (risk_level item = "low" <-> risk_score item < 70) /\
  documents item = document_count w c /\
  open_workflows item = len (client_workflows w c).

(** ** Sample data *)

Module Sample.

(** 2024-01-01T00:00:00 *)
Definition new_year_2024 : datetime.t := datetime.make 2024 1 1 0 0 0.

Definition gst_client : client_doc :=
  {| cd_id := "65a1b2c3d4e5f60718293a4b";
     cd_fields := {[ "name" := PyStr "Acme Traders";
                     "client_type" := PyStr "GST";
                     "fiscal_year" := PyStr "FY 2024-25" ]} |}.

(** A client whose [fiscal_year] is the empty string. *)
Definition gst_client_empty_fy : client_doc :=
  {| cd_id := "65a1b2c3d4e5f60718293a4c";
     cd_fields := {[ "name" := PyStr "Bharat Stores";
                     "client_type" := PyStr "Regular gSt filer";
                     "fiscal_year" := PyStr "" ]} |}.

(** A client without [client_type] and [fiscal_year]. *)
Definition bare_client : client_doc :=
  {| cd_id := "65a1b2c3d4e5f60718293a4d";
     cd_fields := {[ "name" := PyStr "Nameless & Co" ]} |}.

Definition frozen_clock (now : datetime.t) : nat -> datetime.t := fun _ => now.

Definition empty_world : world :=
  {| clock := frozen_clock new_year_2024; ticks := 0;
     db_client := []; db_workflow := []; db_document := [] |}.

(** A step as it is stored. *)
Definition stored_step (k st : string) (due : value) (deps : list string) : step_doc :=
  {[ "key" := VStr k; "status" := VStr st; "due_date" := due;
     "dependencies" := VStrList deps ]}.

Definition collect_gstr : step_doc :=
  stored_step "collect_gstr" "done" (VDatetime (datetime.make 2024 1 15 0 0 0)) [].

Definition reconcile_ledgers : step_doc :=
  stored_step "reconcile_ledgers" "todo"
    (VDatetime (datetime.make 2024 1 22 0 0 0)) ["collect_gstr"].

Definition variance_analysis : step_doc :=
  stored_step "variance_analysis" "todo"
    (VDatetime (datetime.make 2024 6 1 0 0 0)) ["reconcile_ledgers"].

(** A step whose due date was stored as text. *)
Definition draft_report : step_doc :=
  stored_step "draft_report" "todo" (VStr "2024-01-02") ["variance_analysis"].

(** A step without status, due in the past. *)
Definition partner_signoff : step_doc :=
  {[ "key" := VStr "partner_signoff";
     "due_date" := VDatetime (datetime.make 2023 12 1 0 0 0) ]}.

Definition workflow_id : ObjectId := "65a1b2c3d4e5f60718293a5a".

Definition stored_workflow : workflow_doc :=
  {| wd_id := workflow_id;
     wd_fields := {[ "client_id" := VStr (cd_id gst_client);
                     "client_type" := VStr "GST";
                     "fiscal_year" := VStr "FY 2024-25";
                     "version" := VStr "v1" ]};
     wd_steps := Some [collect_gstr; reconcile_ledgers; variance_analysis;
                       draft_report] |}.

Definition other_workflow : workflow_doc :=
  {| wd_id := "65a1b2c3d4e5f60718293a5b";
     wd_fields := {[ "client_id" := VStr (cd_id bare_client);
                     "client_type" := VStr "";
                     "version" := VStr "v1" ]};
     wd_steps := Some [partner_signoff] |}.

Definition stored_document (o : ObjectId) (c : client_doc) (name : string)
    : document_doc :=
  {| dd_id := o;
     dd_fields := {[ "client_id" := VStr (cd_id c); "source" := VStr "upload";
                     "name" := VStr name; "category" := VStr "gstr" ]} |}.

(** 2024-03-01T00:00:00 *)
Definition march_2024 : datetime.t := datetime.make 2024 3 1 0 0 0.

(** Two clients; the first has two documents and one workflow with
    exactly one step that is overdue and not done. *)
Definition audit_world : world :=
  {| clock := frozen_clock march_2024; ticks := 0;
     db_client := [gst_client; bare_client];
     db_workflow := [other_workflow; stored_workflow];
     db_document :=
       [stored_document "65a1b2c3d4e5f60718293a6a" gst_client "GSTR-1.pdf";
        stored_document "65a1b2c3d4e5f60718293a6b" bare_client "ledger.xlsx";
        stored_document "65a1b2c3d4e5f60718293a6c" gst_client "GSTR-3B.pdf"] |}.

End Sample.

(** ** Workflow generation endpoint *)

(** The response [{"id": ...}]. *)
Record id_response := { resp_id : string }.

(** [generate_workflow(req)].  [create_document] is the helper of the
    database module, taken as a parameter: it receives the collection
    name and the model and returns the identifier of the new
    document.  The argument [oid(req.client_id)] is evaluated before
    [db.client.find_one] is called. *)
Definition generate_workflow (create_document : string -> Workflow -> M string)
    (req_client_id : string) : M id_response :=
  o <- oid req_client_id ;;
  found <- db_client_call "find_one" ;;
  match found : option client_doc with
  | None => raise (HTTPException 404 "Client not found")
  | Some client =>
      wf <- build_workflow_for_client client ;;
      wf_id <- create_document "workflow" wf ;;
      ret {| resp_id := wf_id |}
  end.

(** ASCII white space, which [bytes.fromhex] skips between bytes. *)
Definition is_space (c : ascii) : bool :=
  let n := N_of_ascii c in ((n =? 32) || (9 <=? n) && (n <=? 13))%N.

(** An identifier that [ObjectId] cannot accept: not 24 characters
    long, or holding a character that is neither a hexadecimal digit nor
    white space. *)
Definition malformed_id (s : string) : Prop :=
  String.length s <> 24%nat \/
  exists c : ascii,
    In c (list_ascii_of_string s) /\
    PyStr.is_hex_digit c = false /\ is_space c = false.

(** ** AI audit assistant *)

(** The line feed. *)
Definition nl : string := String (ascii_of_N 10) "".

(** ["\n".join(lines)] *)
Fixpoint join_lines (lines : list string) : string :=
  match lines with
  | [] => ""
  | [x] => x
  | x :: rest => x +:+ nl +:+ join_lines rest
  end.

(** A value interpolated in an f-string. *)
Definition fmt (v : pyopt) : string :=
  match v with
  | PyNone => "None"
  | PyStr s => s
  end.

(** The entries of [req.context] that [ai_assist] reads, each absent or
    of the type the code uses it at: ["client"] a dict of text fields,
    ["anomalies"] a list of such dicts, ["client_type"] and ["period"]
    text or [None]. *)
Record assist_context := {
  ctx_client : option (gmap string pyopt);
  ctx_anomalies : option (list (gmap string pyopt));
  ctx_client_type : option pyopt;
  ctx_period : option pyopt
}.

(** The responses [{"content": text}] and [{"items": base}]. *)
Inductive assist_response :=
| Content (text : string)
| Items (base : list string).

(** The [for a in anomalies: lines.append(...)] loop. *)
Fixpoint anomaly_lines (anomalies : list (gmap string pyopt)) (lines : list string)
    : list string :=
  match anomalies with
  | [] => lines
  | a :: rest =>
      anomaly_lines rest
        (lines ++ ["- " +:+ fmt (default (PyStr "Issue") (a !! "label"))
                   +:+ ": variance " +:+ fmt (default (PyStr "N/A") (a !! "variance"))
                   +:+ " on " +:+ fmt (default (PyStr "account") (a !! "account"))])
  end.

Definition ai_assist (kind : string) (ctx : assist_context) : result assist_response :=
  if String.eqb kind "note" then
    let client := default ∅ (ctx_client ctx) in
    Ok (Content
          ("Audit Note for " +:+ fmt (default (PyStr "Client") (client !! "name"))
           +:+ " (Type: " +:+ fmt (default (PyStr "N/A") (client !! "client_type"))
           +:+ "):" +:+ nl
           +:+ "- Reviewed submitted documents." +:+ nl
           +:+ "- Pending confirmations from vendors and bank reconciliation." +:+ nl
           +:+ "- Next step: variance analysis and draft preparation."))
  else if String.eqb kind "anomaly_summary" then
    let anomalies := default [] (ctx_anomalies ctx) in
    let lines := anomaly_lines anomalies ["Anomaly Summary:"] in
    let lines := match anomalies with
                 | [] => lines ++ ["- No material anomalies detected based on supplied data."]
                 | _ :: _ => lines
                 end in
    Ok (Content (join_lines lines))
  else if String.eqb kind "checklist" then
    let client_type := PyStr.lower (py_or (default PyNone (ctx_client_type ctx)) "") in
    let base := ["Engagement letter signed";
                 "KYC and onboarding completed";
                 "Trial balance received"] in
    let base := if PyStr.contains "gst" client_type
                then base ++ ["GSTR-1, 3B, 2B downloaded";
                              "Sales vs GSTR-1 reconciliation";
                              "ITC eligibility review"]
                else base in
    Ok (Items base)
  else if String.eqb kind "report_draft" then
    let client := default ∅ (ctx_client ctx) in
    let period := default (PyStr "the period under audit") (ctx_period ctx) in
    Ok (Content
          ("Draft Audit Report - " +:+ fmt (default (PyStr "Client") (client !! "name"))
           +:+ nl
           +:+ "Scope: " +:+ fmt period +:+ nl
           +:+ "Methodology: Performed ledger walkthroughs, analytical procedures, and sampling."
           +:+ nl
           +:+ "Observations: Pending sign-offs and minor variances noted." +:+ nl
           +:+ "Conclusion: Subject to completion of pending procedures, no material misstatements observed."))
  else Raise (HTTPException 400 "Unsupported kind").

(** ** Vocabulary of the further properties *)

(** The values the schema documents for [category] and [status]. *)
Definition categories : list string :=
  ["documents"; "verification"; "analysis"; "reporting"; "signoff"].

Definition statuses : list string := ["todo"; "in_progress"; "blocked"; "done"].

(** Every step but the first depends on the step before it and on
    nothing else; the first depends on nothing. *)
Definition linear_chain (l : list WorkflowStep) : Prop :=
  (forall s, l !! 0%nat = Some s -> dependencies s = []) /\
  (forall (i : nat) (s s' : WorkflowStep),
      l !! i = Some s -> l !! S i = Some s' -> dependencies s' = [key s]).

(** Due dates grow strictly along the list. *)
Definition due_dates_increasing (l : list WorkflowStep) : Prop :=
  forall (i j : nat) (s s' : WorkflowStep),
    (i < j)%nat -> l !! i = Some s -> l !! j = Some s' ->
    exists d d', due_date s = Some d /\ due_date s' = Some d' /\ d < d'.

(** The steps after the first one with key [k] is given status [st] at
    time [now]; [None] when no step has the key. *)
Fixpoint set_status (k st : string) (now : datetime.t) (l : list step_doc)
    : option (list step_doc) :=
  match l with
  | [] => None
  | s :: rest =>
      if value_eq_str (default VNone (s !! "key")) k
      then Some (with_status st now s :: rest)
      else cons s <$> set_status k st now rest
  end.

(** Two stored steps that agree on every field but [updated_at]. *)
Definition same_but_updated_at (x y : step_doc) : Prop :=
  forall f : string, f <> "updated_at" -> x !! f = y !! f.

(** The world after a successful step update that stores [l]. *)
Definition updated_world (w : world) (o : ObjectId) (l : list step_doc) : world :=
  {| clock := clock w; ticks := S (ticks w); db_client := db_client w;
     db_workflow := update_one_set_steps o l (db_workflow w);
     db_document := db_document w |}.

(** [item] is an entry the tracker can give client [c] whatever the
    clock reads: the penalty for overdue steps is some [ov] between 0 and
    15 per step of the client's workflows. *)
Definition rated (w : world) (c : client_doc) (item : risk_item) : Prop :=
  ri_client item = serialize c /\
  documents item = document_count w c /\
  open_workflows item = len (client_workflows w c) /\
  (exists ov : Z,
      0 <= ov <= 15 * len (all_steps (client_workflows w c)) /\
      risk_score item =
        Z.min 100 (50 + missing_docs_penalty (document_count w c) + ov)) /\
  (risk_level item = "high" <-> 85 <= risk_score item) /\
  (risk_level item = "medium" <-> 70 <= risk_score item < 85) /\
  (risk_level item = "low" <-> risk_score item < 70).

(** The text shown for field [k] of [a]: the fallback when the key is
    absent, "None" when it holds [None], else the stored text. *)
Definition shown (a : gmap string pyopt) (k fallback : string) : string :=
  match a !! k with
  | None => fallback
  | Some PyNone => "None"
  | Some (PyStr s) => s
  end.

Definition base_checklist : list string :=
  ["Engagement letter signed"; "KYC and onboarding completed";
   "Trial balance received"].

Definition gst_checklist : list string :=
  ["GSTR-1, 3B, 2B downloaded"; "Sales vs GSTR-1 reconciliation";
   "ITC eligibility review"].

Definition assist_kinds : list string :=
  ["note"; "anomaly_summary"; "checklist"; "report_draft"].

(** The text of a [client_type] entry of the assistant's context. *)
Definition context_type_text (ctx : assist_context) : string :=
  match ctx_client_type ctx with
  | Some (PyStr s) => s
  | _ => ""
  end.

(** ** Further sample data *)

Module Fixture.

(** A second GST client of the same fiscal year. *)
Definition composite_client : client_doc :=
  {| cd_id := "65a1b2c3d4e5f60718293a4e";
     cd_fields := {[ "name" := PyStr "Composite Dealers";
                     "client_type" := PyStr "gst composite";
                     "fiscal_year" := PyStr "FY 2024-25" ]} |}.

(** A client stored with a [client_type] of [None]. *)
Definition untyped_client : client_doc :=
  {| cd_id := "65a1b2c3d4e5f60718293a4f";
     cd_fields := {[ "name" := PyStr "Untyped Ltd"; "client_type" := PyNone ]} |}.

Definition registry : world :=
  {| clock := Sample.frozen_clock Sample.new_year_2024; ticks := 0;
     db_client := [Sample.gst_client; untyped_client];
     db_workflow := []; db_document := [] |}.

(** A step of the model as a stored step. *)
Definition step_to_doc (s : WorkflowStep) : step_doc :=
  {[ "key" := VStr (key s); "title" := VStr (title s);
     "category" := VStr (category s); "status" := VStr (status s);
     "due_date" := match due_date s with
                   | Some d => VDatetime d
                   | None => VNone
                   end;
     "dependencies" := VStrList (dependencies s) ]}.

(** An inserting helper: stores the workflow under a fixed identifier. *)
Definition create_document (collection : string) (wf : Workflow) : M string :=
  w <- get_world ;;
  set_db_workflow
    (db_workflow w ++
     [{| wd_id := "65a1b2c3d4e5f60718293a7a";
         wd_fields := {[ "client_id" := VStr (client_id wf);
                         "client_type" := VStr (client_type wf);
                         "version" := VStr (version wf) ]};
         wd_steps := Some (map step_to_doc (steps wf)) |}]) ;;;
  ret "65a1b2c3d4e5f60718293a7a".

Definition gst_context : assist_context :=
  {| ctx_client := None; ctx_anomalies := None;
     ctx_client_type := Some (PyStr "GST"); ctx_period := None |}.

(** Two anomalies: one complete, one with a [None] label and nothing
    else. *)
Definition anomaly_context : assist_context :=
  {| ctx_client := None;
     ctx_anomalies :=
       Some [ {[ "label" := PyStr "Round sums"; "variance" := PyStr "12%";
                 "account" := PyStr "Sales" ]};
              {[ "label" := PyNone ]} ];
     ctx_client_type := None; ctx_period := None |}.

End Fixture.

(** ** Properties *)

Section Classification.

Local Ltac ascii_cases a :=
  destruct a as [[] [] [] [] [] [] [] []]; vm_compute;
  split; intros H; try discriminate H; auto;
  destruct H as [H | H]; discriminate H.

Lemma lower_ascii_g (a : ascii) :
  PyStr.lower_ascii a = "g"%char <-> a = "g"%char \/ a = "G"%char.
Proof. ascii_cases a. Qed.

Lemma lower_ascii_s (a : ascii) :
  PyStr.lower_ascii a = "s"%char <-> a = "s"%char \/ a = "S"%char.
Proof. ascii_cases a. Qed.

Lemma lower_ascii_t (a : ascii) :
  PyStr.lower_ascii a = "t"%char <-> a = "t"%char \/ a = "T"%char.
Proof. ascii_cases a. Qed.

Lemma startswith_gst_lower (s : string) :
  PyStr.startswith "gst" (PyStr.lower s) = true <->
  exists a b c post,
    s = String a (String b (String c post)) /\
    (a = "g"%char \/ a = "G"%char) /\
    (b = "s"%char \/ b = "S"%char) /\
    (c = "t"%char \/ c = "T"%char).
Proof.
  split.
  - destruct s as [|a [|b [|c post]]];
      cbn [PyStr.startswith PyStr.lower]; try discriminate;
      repeat (match goal with
              | |- context [Ascii.eqb ?x ?y] =>
                  destruct (Ascii.eqb_spec x y); try discriminate
              end).
    intros _. exists a, b, c, post.
    split; [reflexivity|].
    repeat split;
      [apply lower_ascii_g | apply lower_ascii_s | apply lower_ascii_t];
      symmetry; assumption.
  - intros (a & b & c & post & -> & Ha & Hb & Hc).
    apply lower_ascii_g in Ha. apply lower_ascii_s in Hb.
    apply lower_ascii_t in Hc.
    cbn [PyStr.startswith PyStr.lower]. rewrite Ha, Hb, Hc. reflexivity.
Qed.

(** The test of [build_workflow_for_client] is the case-insensitive
    substring test. *)
Lemma contains_gst_lower (s : string) :
  PyStr.contains "gst" (PyStr.lower s) = true <-> contains_gst_ci s.
Proof.
  induction s as [|x s IH].
  - split.
    + simpl. discriminate.
    + intros (pre & a & b & c & post & Heq & _).
      destruct pre; discriminate Heq.
  - change (PyStr.lower (String x s)) with
      (String (PyStr.lower_ascii x) (PyStr.lower s)).
    change (PyStr.contains "gst" (String (PyStr.lower_ascii x) (PyStr.lower s)))
      with (PyStr.startswith "gst" (String (PyStr.lower_ascii x) (PyStr.lower s))
            || PyStr.contains "gst" (PyStr.lower s)).
    change (String (PyStr.lower_ascii x) (PyStr.lower s))
      with (PyStr.lower (String x s)).
    rewrite orb_true_iff, startswith_gst_lower, IH.
    split.
    + intros [(a & b & c & post & Heq & H) | (pre & a & b & c & post & Heq & H)].
      * exists "", a, b, c, post. split; [exact Heq | exact H].
      * exists (String x pre), a, b, c, post. split; [|exact H].
        simpl. rewrite Heq. reflexivity.
    + intros (pre & a & b & c & post & Heq & H).
      destruct pre as [|y pre]; simpl in Heq.
      * left. exists a, b, c, post. split; [exact Heq | exact H].
      * right. injection Heq as -> Heq.
        exists pre, a, b, c, post. split; [exact Heq | exact H].
Qed.

End Classification.

Section Builder.

Lemma py_or_client_type (c : client_doc) :
  py_or (client_get c "client_type") "" = client_type_text c.
Proof.
  unfold client_get, client_type_text.
  destruct (cd_fields c !! "client_type") as [[|[|]]|]; reflexivity.
Qed.

Lemma client_type_default (c : client_doc) :
  client_type_ok c ->
  client_get_default c "client_type" (PyStr "") = PyStr (client_type_text c).
Proof.
  unfold client_type_ok, client_get_default, client_type_text.
  destruct (cd_fields c !! "client_type") as [[|]|]; simpl; congruence.
Qed.

Lemma not_contains_gst_empty : ~ contains_gst_ci "".
Proof. rewrite <- contains_gst_lower. vm_compute. discriminate. Qed.

(** The builder never fails on a client whose [client_type] is absent
    or a string; it reads the clock once. *)
Lemma build_run (c : client_doc) (w : world) :
  client_type_ok c ->
  exists stps,
    (if PyStr.contains "gst" (PyStr.lower (client_type_text c))
     then gst_workflow_template c else generic_workflow_template c) w
    = (Ok stps, advance w) /\
    build_workflow_for_client c w =
    (Ok {| client_id := ObjectId_str (cd_id c);
           client_type := client_type_text c;
           fiscal_year := match client_get c "fiscal_year" with
                          | PyNone => None
                          | PyStr s => Some s
                          end;
           version := "v1";
           steps := stps |},
     advance w).
Proof.
  intros Hok. unfold build_workflow_for_client.
  rewrite py_or_client_type, (client_type_default c Hok).
  unfold bind.
  destruct (PyStr.contains "gst" (PyStr.lower (client_type_text c)));
    (eexists; split; [reflexivity|]); reflexivity.
Qed.

(** A [client_type] of [None] passes the classification and is then
    rejected by the [Workflow] model. *)
Lemma build_none_client_type (c : client_doc) (w : world) :
  cd_fields c !! "client_type" = Some PyNone ->
  build_workflow_for_client c w =
  (Raise (ValidationError "Workflow" "client_type"), advance w).
Proof.
  intros H. unfold build_workflow_for_client, client_get, client_get_default.
  rewrite H. reflexivity.
Qed.

(** Splits on the template family and exposes the steps. *)
Local Ltac build_cases c w Hok wf Hgst :=
  let stps := fresh "stps" in
  let Hrun := fresh "Hrun" in
  let Hbuild := fresh "Hbuild" in
  destruct (build_run c w Hok) as (stps & Hrun & Hbuild);
  match type of Hbuild with
  | _ = (Ok ?v, _) => exists v
  end;
  split; [exact Hbuild|]; clear Hbuild;
  cbn [steps version client_id client_type fiscal_year];
  destruct (PyStr.contains "gst" (PyStr.lower (client_type_text c))) eqn:Hgst;
  [ apply contains_gst_lower in Hgst
  | assert (~ contains_gst_ci (client_type_text c))
      by (rewrite <- contains_gst_lower, Hgst; discriminate);
    clear Hgst; rename H into Hgst ];
  injection Hrun as <-.

(** C1. The GST family is selected exactly when [client_type] holds
    "gst" in any letter case; every other client, also one whose
    [client_type] is missing or empty, gets the Generic family.  The
    GST workflow has the five keys [gst_keys] in order and the Generic
    one the four keys [generic_keys]. *)
Theorem build_selects_family (c : client_doc) (w : world) :
  client_type_ok c ->
  exists wf,
    build_workflow_for_client c w = (Ok wf, advance w) /\
    (contains_gst_ci (client_type_text c) <-> map key (steps wf) = gst_keys) /\
    (~ contains_gst_ci (client_type_text c) <-> map key (steps wf) = generic_keys) /\
    (contains_gst_ci (client_type_text c) ->
     gst_workflow_template c w = (Ok (steps wf), advance w) /\
     length (steps wf) = 5%nat) /\
    (~ contains_gst_ci (client_type_text c) ->
     generic_workflow_template c w = (Ok (steps wf), advance w) /\
     length (steps wf) = 4%nat) /\
    (cd_fields c !! "client_type" = None \/
     cd_fields c !! "client_type" = Some (PyStr "") ->
     map key (steps wf) = generic_keys).
Proof.
  intros Hok.
  assert (Hempty : cd_fields c !! "client_type" = None \/
                   cd_fields c !! "client_type" = Some (PyStr "") ->
                   ~ contains_gst_ci (client_type_text c)).
  { unfold client_type_text.
    intros [-> | ->]; exact not_contains_gst_empty. }
  build_cases c w Hok wf Hgst.
  - repeat split; try reflexivity; try (intros; assumption);
      try (intros; contradiction); try discriminate.
    intros H. apply Hempty in H. contradiction.
  - repeat split; try reflexivity; try (intros; assumption);
      try (intros; contradiction); try discriminate.
Qed.

Local Ltac days := unfold datetime.timedelta, datetime.us_per_day; lia.

(** Enumerates the positions of an explicit list. *)
Local Ltac positions i Hi :=
  first [ discriminate Hi
        | destruct i as [|i];
          [ injection Hi as <- | cbn in Hi; positions i Hi ] ].

(** C2. Due dates follow the template schedule: the GST steps are due
    at B, B+7d, B+12d, B+18d and B+20d for B = T+14d, the Generic steps
    at T+7d, T+14d, T+20d and T+22d, where T is the clock reading.  Due
    dates never decrease along the list, and for T = 2024-01-01T00:00:00
    a GST client's collect_gstr is due 2024-01-15T00:00:00 and
    partner_signoff 2024-02-04T00:00:00. *)
Theorem build_due_dates (c : client_doc) (w : world) :
  client_type_ok c ->
  exists wf,
    build_workflow_for_client c w = (Ok wf, advance w) /\
    (contains_gst_ci (client_type_text c) ->
     schedule (steps wf) =
     [("collect_gstr", Some (reading w + datetime.timedelta 14));
      ("reconcile_ledgers",
       Some (reading w + datetime.timedelta 14 + datetime.timedelta 7));
      ("variance_analysis",
       Some (reading w + datetime.timedelta 14 + datetime.timedelta 12));
      ("draft_report",
       Some (reading w + datetime.timedelta 14 + datetime.timedelta 18));
      ("partner_signoff",
       Some (reading w + datetime.timedelta 14 + datetime.timedelta 20))]) /\
    (~ contains_gst_ci (client_type_text c) ->
     schedule (steps wf) =
     [("kickoff", Some (reading w + datetime.timedelta 7));
      ("fieldwork", Some (reading w + datetime.timedelta 14));
      ("draft", Some (reading w + datetime.timedelta 20));
      ("signoff", Some (reading w + datetime.timedelta 22))]) /\
    due_dates_nondecreasing (steps wf) /\
    (contains_gst_ci (client_type_text c) ->
     reading w = datetime.make 2024 1 1 0 0 0 ->
     due_date <$> step_by_key "collect_gstr" (steps wf)
       = Some (Some (datetime.make 2024 1 15 0 0 0)) /\
     due_date <$> step_by_key "partner_signoff" (steps wf)
       = Some (Some (datetime.make 2024 2 4 0 0 0))).
Proof.
  intros Hok. build_cases c w Hok wf Hgst.
  - split; [intros _; reflexivity|].
    split; [intros; contradiction|].
    split.
    + intros i j s s' Hij Hi Hj.
      positions i Hi; positions j Hj;
        try lia; do 2 eexists; (split; [reflexivity|]); (split; [reflexivity|]);
        fold (reading w); days.
    + intros _ HT. cbn. fold (reading w). rewrite HT.
      split; vm_compute; reflexivity.
  - split; [intros; contradiction|].
    split; [intros _; reflexivity|].
    split; [|intros; contradiction].
    intros i j s s' Hij Hi Hj.
    positions i Hi; positions j Hj;
      try lia; do 2 eexists; (split; [reflexivity|]); (split; [reflexivity|]);
      fold (reading w); days.
Qed.

Local Ltac at_position n :=
  exists n; eexists; split; [lia | split; reflexivity].

Local Ltac earlier_step :=
  first [ at_position 0%nat | at_position 1%nat
        | at_position 2%nat | at_position 3%nat ].

Local Ltac deps_cases :=
  split;
  [ intros i s d Hi Hd; positions i Hi; cbn in Hd;
    try contradiction; destruct Hd as [<- | []]; earlier_step
  | intros i j s s' Hi Hj Hd; positions i Hi; positions j Hj; cbn in Hd;
    try lia; try contradiction; destruct Hd as [Hd | []]; discriminate Hd ].

(** C6. In both template families every dependency of a step is the
    key of a step that comes earlier in the same list, so dependencies
    point backwards only: no step depends on itself or on a later
    step. *)
Theorem build_dependencies_precede (c : client_doc) (w : world) :
  client_type_ok c ->
  exists wf,
    build_workflow_for_client c w = (Ok wf, advance w) /\
    deps_precede (steps wf) /\
    deps_forward_only (steps wf).
Proof.
  intros Hok. build_cases c w Hok wf Hgst; deps_cases.
Qed.

(** C7. The workflow has version "v1", every step at status "todo",
    and its [client_id], [client_type] and [fiscal_year] are those of
    the client record ([client_type] is empty and [fiscal_year] is
    [None] when the record has none). *)
Theorem build_copies_client (c : client_doc) (w : world) :
  client_type_ok c ->
  exists wf,
    build_workflow_for_client c w = (Ok wf, advance w) /\
    version wf = "v1" /\
    Forall (fun s => status s = "todo") (steps wf) /\
    client_id wf = ObjectId_str (cd_id c) /\
    (forall s, cd_fields c !! "client_type" = Some (PyStr s) -> client_type wf = s) /\
    (cd_fields c !! "client_type" = None -> client_type wf = "") /\
    (forall s, cd_fields c !! "fiscal_year" = Some (PyStr s) ->
               fiscal_year wf = Some s) /\
    (cd_fields c !! "fiscal_year" = None \/
     cd_fields c !! "fiscal_year" = Some PyNone ->
     fiscal_year wf = None).
Proof.
  intros Hok.
  assert (Hct : forall s, cd_fields c !! "client_type" = Some (PyStr s) ->
                          client_type_text c = s).
  { intros s H. unfold client_type_text. rewrite H. reflexivity. }
  assert (Hct0 : cd_fields c !! "client_type" = None -> client_type_text c = "").
  { intros H. unfold client_type_text. rewrite H. reflexivity. }
  assert (Hfy : forall s, cd_fields c !! "fiscal_year" = Some (PyStr s) ->
                          match client_get c "fiscal_year" with
                          | PyNone => None
                          | PyStr x => Some x
                          end = Some s).
  { intros s H. unfold client_get. rewrite H. reflexivity. }
  assert (Hfy0 : cd_fields c !! "fiscal_year" = None \/
                 cd_fields c !! "fiscal_year" = Some PyNone ->
                 match client_get c "fiscal_year" with
                 | PyNone => None
                 | PyStr x => Some x
                 end = @None string).
  { unfold client_get. intros [-> | ->]; reflexivity. }
  build_cases c w Hok wf Hgst;
    (split; [reflexivity|]);
    (split; [repeat constructor|]);
    (split; [reflexivity|]);
    repeat split; assumption.
Qed.

(** C8, as the code has it.  In a GST workflow the description of
    collect_gstr is "Collect GST returns for " followed by the client's
    [fiscal_year] when that is a non-empty string, and
    "Collect GST returns for Current FY" when [fiscal_year] is absent,
    [None] or the empty string. *)
Theorem gst_description_fiscal_year (c : client_doc) (w : world) :
  client_type_ok c ->
  contains_gst_ci (client_type_text c) ->
  exists wf s,
    build_workflow_for_client c w = (Ok wf, advance w) /\
    step_by_key "collect_gstr" (steps wf) = Some s /\
    (forall fy, cd_fields c !! "fiscal_year" = Some (PyStr fy) -> fy <> "" ->
                description s = Some ("Collect GST returns for " +:+ fy)) /\
    (cd_fields c !! "fiscal_year" = None \/
     cd_fields c !! "fiscal_year" = Some PyNone \/
     cd_fields c !! "fiscal_year" = Some (PyStr "") ->
     description s = Some "Collect GST returns for Current FY").
Proof.
  intros Hok Hci.
  destruct (build_run c w Hok) as (stps & Hrun & Hbuild).
  apply contains_gst_lower in Hci. rewrite Hci in Hrun.
  injection Hrun as <-.
  eexists. eexists. split; [exact Hbuild|].
  cbn [steps]. split; [reflexivity|].
  cbn [description new_WorkflowStep]. unfold client_get. split.
  - intros fy -> Hne. destruct fy; [contradiction | reflexivity].
  - intros [-> | [-> | ->]]; reflexivity.
Qed.

(** C8 as stated fails: a [fiscal_year] that is present but empty is
    not interpolated, the placeholder is used. *)
Lemma fiscal_year_empty_not_interpolated :
  cd_fields Sample.gst_client_empty_fy !! "fiscal_year" = Some (PyStr "") /\
  PyStr.contains "gst"
    (PyStr.lower (client_type_text Sample.gst_client_empty_fy)) = true /\
  exists wf s,
    build_workflow_for_client Sample.gst_client_empty_fy Sample.empty_world
      = (Ok wf, advance Sample.empty_world) /\
    step_by_key "collect_gstr" (steps wf) = Some s /\
    description s = Some "Collect GST returns for Current FY" /\
    description s <> Some ("Collect GST returns for " +:+ "").
Proof.
  split; [vm_compute; reflexivity|].
  split; [vm_compute; reflexivity|].
  eexists. eexists.
  split; [vm_compute; reflexivity|].
  split; [vm_compute; reflexivity|].
  split; [reflexivity | discriminate].
Qed.

End Builder.

Section StepUpdate.

Lemma value_eq_str_key (k : string) (s : step_doc) :
  value_eq_str (default VNone (s !! "key")) k = true <-> has_key k s.
Proof.
  unfold has_key.
  destruct (s !! "key") as [[| x | |]|]; simpl; try (split; congruence).
  rewrite String.eqb_eq. split; congruence.
Qed.

Lemma has_key_with_status (k st : string) (now : datetime.t) (s : step_doc) :
  has_key k s -> has_key k (with_status st now s).
Proof.
  unfold has_key, with_status. intros H.
  rewrite !lookup_insert_ne by discriminate. exact H.
Qed.

(** The loop stops at the first step with the key and changes it
    only; the clock is read once. *)
Lemma update_steps_loop_match (k st : string) (pre post : list step_doc)
    (s : step_doc) (w : world) :
  Forall (fun x => ~ has_key k x) pre ->
  has_key k s ->
  update_steps_loop k st (pre ++ s :: post) w =
  (Ok (true, pre ++ with_status st (reading w) s :: post), advance w).
Proof.
  intros Hpre Hs. induction Hpre as [|x pre Hx _ IH].
  - simpl. apply value_eq_str_key in Hs. rewrite Hs. reflexivity.
  - simpl. rewrite <- value_eq_str_key in Hx.
    destruct (value_eq_str (default VNone (x !! "key")) k);
      [congruence|].
    unfold bind at 1. rewrite IH. reflexivity.
Qed.

(** Without a matching step the loop changes nothing and does not read
    the clock. *)
Lemma update_steps_loop_nomatch (k st : string) (l : list step_doc) (w : world) :
  Forall (fun x => ~ has_key k x) l ->
  update_steps_loop k st l w = (Ok (false, l), w).
Proof.
  induction 1 as [|x l Hx _ IH]; [reflexivity|].
  simpl. rewrite <- value_eq_str_key in Hx.
  destruct (value_eq_str (default VNone (x !! "key")) k); [congruence|].
  unfold bind at 1. rewrite IH. reflexivity.
Qed.

(** A list either has a first step with key [k] or none at all. *)
Lemma first_with_key (k : string) (l : list step_doc) :
  (exists pre s post,
      l = pre ++ s :: post /\ Forall (fun x => ~ has_key k x) pre /\ has_key k s)
  \/ Forall (fun x => ~ has_key k x) l.
Proof.
  induction l as [|x l IH]; [right; constructor|].
  destruct (value_eq_str (default VNone (x !! "key")) k) eqn:Hx.
  - left. exists [], x, l. apply value_eq_str_key in Hx. auto.
  - assert (~ has_key k x) by (rewrite <- value_eq_str_key; congruence).
    destruct IH as [(pre & s & post & -> & Hpre & Hs) | Hall].
    + left. exists (x :: pre), s, post. auto.
    + right. constructor; assumption.
Qed.

(** [find_one] returns the first document with the identifier. *)
Lemma find_one_workflow_Some (coll : list workflow_doc) (o : ObjectId)
    (wf : workflow_doc) :
  find_one_workflow coll o = Some wf ->
  wd_id wf = o /\
  exists dpre dpost,
    coll = dpre ++ wf :: dpost /\ Forall (fun d => wd_id d <> o) dpre.
Proof.
  unfold find_one_workflow. induction coll as [|d coll IH]; [discriminate|].
  simpl. destruct (String.eqb_spec (wd_id d) o) as [Heq | Hne].
  - intros [= ->]. split; [exact Heq|]. exists [], coll. auto.
  - intros H. destruct (IH H) as (Hid & dpre & dpost & -> & Hpre).
    split; [exact Hid|]. exists (d :: dpre), dpost. auto.
Qed.

Lemma find_one_workflow_app (dpre dpost : list workflow_doc) (o : ObjectId)
    (wf : workflow_doc) :
  Forall (fun d => wd_id d <> o) dpre -> wd_id wf = o ->
  find_one_workflow (dpre ++ wf :: dpost) o = Some wf.
Proof.
  unfold find_one_workflow. intros Hpre Hid.
  induction Hpre as [|d dpre Hd _ IH]; simpl.
  - apply String.eqb_eq in Hid. rewrite Hid. reflexivity.
  - apply String.eqb_neq in Hd. rewrite Hd. exact IH.
Qed.

Lemma update_one_set_steps_app (dpre dpost : list workflow_doc) (o : ObjectId)
    (wf : workflow_doc) (l : list step_doc) :
  Forall (fun d => wd_id d <> o) dpre -> wd_id wf = o ->
  update_one_set_steps o l (dpre ++ wf :: dpost) = dpre ++ with_steps wf l :: dpost.
Proof.
  intros Hpre Hid. induction Hpre as [|d dpre Hd _ IH]; simpl.
  - apply String.eqb_eq in Hid. rewrite Hid. reflexivity.
  - apply String.eqb_neq in Hd. rewrite Hd, IH. reflexivity.
Qed.

(** The successful run of the endpoint: the stored workflow is
    replaced, at its position, by the one whose first step with key
    [k] has the new status. *)
Lemma update_step_status_run (wid k st : string) (w : world) (o : ObjectId)
    (dpre dpost : list workflow_doc) (wf : workflow_doc)
    (pre post : list step_doc) (s : step_doc) :
  ObjectId_parse wid = Some o ->
  db_workflow w = dpre ++ wf :: dpost ->
  Forall (fun d => wd_id d <> o) dpre ->
  wd_id wf = o ->
  wd_steps wf = Some (pre ++ s :: post) ->
  Forall (fun x => ~ has_key k x) pre ->
  has_key k s ->
  update_step_status wid k st w =
  (Ok {| ok := true |},
   {| clock := clock w; ticks := S (ticks w); db_client := db_client w;
      db_workflow :=
        dpre ++ with_steps wf (pre ++ with_status st (reading w) s :: post) :: dpost;
      db_document := db_document w |}).
Proof.
  intros Hparse Hdb Hdpre Hid Hsteps Hpre Hs.
  unfold update_step_status, oid. rewrite Hparse.
  unfold bind at 1. unfold ret at 1.
  unfold bind at 1. unfold get_world at 1.
  rewrite Hdb, (find_one_workflow_app dpre dpost o wf Hdpre Hid).
  rewrite Hsteps. cbn [default from_option id].
  unfold bind at 1.
  rewrite (update_steps_loop_match k st pre post s w Hpre Hs).
  cbn [fst snd negb].
  rewrite Hid, (update_one_set_steps_app dpre dpost o wf _ Hdpre Hid).
  reflexivity.
Qed.

Lemma with_status_lookup_status (st : string) (now : datetime.t) (s : step_doc) :
  with_status st now s !! "status" = Some (VStr st).
Proof.
  unfold with_status.
  rewrite lookup_insert_ne by discriminate. apply lookup_insert_eq.
Qed.

Lemma with_status_lookup_updated_at (st : string) (now : datetime.t) (s : step_doc) :
  with_status st now s !! "updated_at" = Some (VDatetime now).
Proof. unfold with_status. apply lookup_insert_eq. Qed.

Lemma with_status_lookup_other (st : string) (now : datetime.t) (s : step_doc)
    (f : string) :
  f <> "status" -> f <> "updated_at" -> with_status st now s !! f = s !! f.
Proof.
  intros H1 H2. unfold with_status.
  rewrite !lookup_insert_ne by congruence. reflexivity.
Qed.

Lemma with_status_again (st : string) (now now' : datetime.t) (s : step_doc)
    (f : string) :
  f <> "updated_at" ->
  with_status st now' (with_status st now s) !! f = with_status st now s !! f.
Proof.
  intros Hf. destruct (decide (f = "status")) as [-> | Hne].
  - rewrite !with_status_lookup_status. reflexivity.
  - apply with_status_lookup_other; assumption.
Qed.

(** C3. When the workflow has a step with key [k], the update
    succeeds and the stored workflow differs from the old one in that
    step only: its status is the new one and its [updated_at] the
    clock reading, every other field of the step, every other step,
    the order and number of steps, the other fields of the workflow
    and all other documents are as before.  A second application with
    the same status succeeds and changes nothing but [updated_at] of
    that step: the status stays the same. *)
Theorem update_step_status_frame (wid k st : string) (w : world) (o : ObjectId)
    (wf : workflow_doc) (pre post : list step_doc) (s : step_doc) :
  ObjectId_parse wid = Some o ->
  find_one_workflow (db_workflow w) o = Some wf ->
  wd_steps wf = Some (pre ++ s :: post) ->
  Forall (fun x => ~ has_key k x) pre ->
  has_key k s ->
  exists (w1 w2 : world) (dpre dpost : list workflow_doc) (s1 s2 : step_doc),
    update_step_status wid k st w = (Ok {| ok := true |}, w1) /\
    db_workflow w = dpre ++ wf :: dpost /\
    db_workflow w1 = dpre ++ with_steps wf (pre ++ s1 :: post) :: dpost /\
    find_one_workflow (db_workflow w1) o = Some (with_steps wf (pre ++ s1 :: post)) /\
    wd_id (with_steps wf (pre ++ s1 :: post)) = wd_id wf /\
    wd_fields (with_steps wf (pre ++ s1 :: post)) = wd_fields wf /\
    db_client w1 = db_client w /\
    db_document w1 = db_document w /\
    s1 !! "status" = Some (VStr st) /\
    s1 !! "updated_at" = Some (VDatetime (reading w)) /\
    (forall f, f <> "status" -> f <> "updated_at" -> s1 !! f = s !! f) /\
    update_step_status wid k st w1 = (Ok {| ok := true |}, w2) /\
    db_workflow w2 = dpre ++ with_steps wf (pre ++ s2 :: post) :: dpost /\
    db_client w2 = db_client w /\
    db_document w2 = db_document w /\
    s2 !! "status" = s1 !! "status" /\
    s2 !! "updated_at" = Some (VDatetime (reading w1)) /\
    (forall f, f <> "updated_at" -> s2 !! f = s1 !! f).
Proof.
  intros Hparse Hfind Hsteps Hpre Hs.
  destruct (find_one_workflow_Some _ _ _ Hfind) as (Hid & dpre & dpost & Hdb & Hdpre).
  pose (s1 := with_status st (reading w) s).
  pose (w1 := {| clock := clock w; ticks := S (ticks w); db_client := db_client w;
                 db_workflow := dpre ++ with_steps wf (pre ++ s1 :: post) :: dpost;
                 db_document := db_document w |}).
  pose (s2 := with_status st (reading w1) s1).
  pose (w2 := {| clock := clock w1; ticks := S (ticks w1); db_client := db_client w1;
                 db_workflow := dpre ++ with_steps wf (pre ++ s2 :: post) :: dpost;
                 db_document := db_document w1 |}).
  exists w1, w2, dpre, dpost, s1, s2.
  split; [exact (update_step_status_run wid k st w o dpre dpost wf pre post s
                   Hparse Hdb Hdpre Hid Hsteps Hpre Hs)|].
  split; [exact Hdb|].
  split; [reflexivity|].
  split; [apply find_one_workflow_app; [exact Hdpre | exact Hid]|].
  split; [reflexivity|].
  split; [reflexivity|].
  split; [reflexivity|].
  split; [reflexivity|].
  split; [apply with_status_lookup_status|].
  split; [apply with_status_lookup_updated_at|].
  split; [intros f; apply with_status_lookup_other|].
  split.
  { exact (update_step_status_run wid k st w1 o dpre dpost
             (with_steps wf (pre ++ s1 :: post)) pre post s1
             Hparse eq_refl Hdpre Hid eq_refl Hpre
             (has_key_with_status k st (reading w) s Hs)). }
  split; [reflexivity|].
  split; [reflexivity|].
  split; [reflexivity|].
  split; [unfold s2, s1; rewrite !with_status_lookup_status; reflexivity|].
  split; [apply with_status_lookup_updated_at|].
  intros f. apply with_status_again.
Qed.

(** C4. When no step of the workflow has key [k] the endpoint raises
    StepNotFound, and when the identifier denotes no stored workflow
    it raises WorkflowNotFound; in both cases, and whenever the
    endpoint raises at all, the world is exactly as before: nothing is
    written and the clock is not read. *)
Theorem update_step_status_failures (wid k st : string) (w : world) :
  (forall o wf,
      ObjectId_parse wid = Some o ->
      find_one_workflow (db_workflow w) o = Some wf ->
      Forall (fun x => ~ has_key k x) (default [] (wd_steps wf)) ->
      update_step_status wid k st w = (Raise StepNotFound, w)) /\
  (forall o,
      ObjectId_parse wid = Some o ->
      find_one_workflow (db_workflow w) o = None ->
      update_step_status wid k st w = (Raise WorkflowNotFound, w)) /\
  (forall e w', update_step_status wid k st w = (Raise e, w') -> w' = w).
Proof.
  assert (Hnomatch : forall o wf,
    ObjectId_parse wid = Some o ->
    find_one_workflow (db_workflow w) o = Some wf ->
    Forall (fun x => ~ has_key k x) (default [] (wd_steps wf)) ->
    update_step_status wid k st w = (Raise StepNotFound, w)).
  { intros o wf Hparse Hfind Hall.
    unfold update_step_status, oid. rewrite Hparse.
    unfold bind at 1. unfold ret at 1.
    unfold bind at 1. unfold get_world at 1.
    rewrite Hfind. unfold bind at 1.
    rewrite (update_steps_loop_nomatch k st _ w Hall). reflexivity. }
  assert (Hnowf : forall o,
    ObjectId_parse wid = Some o ->
    find_one_workflow (db_workflow w) o = None ->
    update_step_status wid k st w = (Raise WorkflowNotFound, w)).
  { intros o Hparse Hfind.
    unfold update_step_status, oid. rewrite Hparse.
    unfold bind at 1. unfold ret at 1.
    unfold bind at 1. unfold get_world at 1.
    rewrite Hfind. reflexivity. }
  split; [exact Hnomatch|]. split; [exact Hnowf|].
  intros e w' Hrun.
  destruct (ObjectId_parse wid) as [o|] eqn:Hparse.
  - destruct (find_one_workflow (db_workflow w) o) as [wf|] eqn:Hfind.
    + destruct (first_with_key k (default [] (wd_steps wf)))
        as [(pre & s & post & Hl & Hpre & Hs) | Hall].
      * destruct (find_one_workflow_Some _ _ _ Hfind)
          as (Hid & dpre & dpost & Hdb & Hdpre).
        assert (Hsteps : wd_steps wf = Some (pre ++ s :: post)).
        { destruct (wd_steps wf) as [l|]; simpl in Hl.
          - rewrite Hl. reflexivity.
          - destruct pre; discriminate Hl. }
        rewrite (update_step_status_run wid k st w o dpre dpost wf pre post s
                   Hparse Hdb Hdpre Hid Hsteps Hpre Hs) in Hrun.
        discriminate Hrun.
      * rewrite (Hnomatch o wf eq_refl Hfind Hall) in Hrun. congruence.
    + rewrite (Hnowf o eq_refl Hfind) in Hrun. congruence.
  - unfold update_step_status, oid in Hrun. rewrite Hparse in Hrun.
    unfold bind, raise in Hrun. congruence.
Qed.

(** C9. The update checks neither the new status nor the
    dependencies: whatever the string [st] and whatever the other
    steps and their states, a workflow with a step of key [k] is
    updated and that step's stored status becomes [st]. *)
Theorem update_step_status_unvalidated (wid k st : string) (w : world)
    (o : ObjectId) (wf : workflow_doc) (pre post : list step_doc) (s : step_doc) :
  ObjectId_parse wid = Some o ->
  find_one_workflow (db_workflow w) o = Some wf ->
  wd_steps wf = Some (pre ++ s :: post) ->
  Forall (fun x => ~ has_key k x) pre ->
  has_key k s ->
  exists (w1 : world) (wf1 : workflow_doc) (s1 : step_doc),
    update_step_status wid k st w = (Ok {| ok := true |}, w1) /\
    find_one_workflow (db_workflow w1) o = Some wf1 /\
    wd_steps wf1 = Some (pre ++ s1 :: post) /\
    has_key k s1 /\
    s1 !! "status" = Some (VStr st).
Proof.
  intros Hparse Hfind Hsteps Hpre Hs.
  destruct (find_one_workflow_Some _ _ _ Hfind) as (Hid & dpre & dpost & Hdb & Hdpre).
  eexists. exists (with_steps wf (pre ++ with_status st (reading w) s :: post)).
  exists (with_status st (reading w) s).
  split; [exact (update_step_status_run wid k st w o dpre dpost wf pre post s
                   Hparse Hdb Hdpre Hid Hsteps Hpre Hs)|].
  split; [apply find_one_workflow_app; [exact Hdpre | exact Hid]|].
  split; [reflexivity|].
  split; [apply has_key_with_status; exact Hs|].
  apply with_status_lookup_status.
Qed.

End StepUpdate.

Section RiskScore.

Lemma later_refl (w : world) : later w w.
Proof. unfold later. auto. Qed.

Lemma later_trans (w1 w2 w3 : world) : later w1 w2 -> later w2 w3 -> later w1 w3.
Proof.
  unfold later. intros (? & ? & ? & ? & ?) (? & ? & ? & ? & ?).
  repeat split; try congruence. lia.
Qed.

Lemma later_advance (w : world) : later w (advance w).
Proof. unfold later, advance. simpl. auto. Qed.

Lemma agrees_later (now : datetime.t) (w w' : world) (s : step_doc) :
  later w w' -> agrees now w s -> agrees now w' s.
Proof.
  unfold agrees. intros (Hc & Ht & _) H n d Hn Hd.
  rewrite Hc. apply H; [lia | exact Hd].
Qed.

Lemma clock_reads_later (now : datetime.t) (w w' : world) :
  clock_reads now w -> later w w' -> clock_reads now w'.
Proof.
  unfold clock_reads. intros H Hl wf s Hwf Hs.
  apply (agrees_later now w w' s Hl).
  destruct Hl as (_ & _ & _ & Hdb & _). rewrite Hdb in Hwf.
  exact (H wf s Hwf Hs).
Qed.

Lemma status_not_done (s : step_doc) :
  negb (value_eq_str (default (VStr "todo") (s !! "status")) "done")
  = negb (is_done s).
Proof.
  unfold is_done. destruct (s !! "status") as [[| x | |]|]; reflexivity.
Qed.

(** One step adds 15 exactly when it is overdue and incomplete. *)
Lemma overdue_step_reads (now : datetime.t) (s : step_doc) (acc : Z) (w : world) :
  agrees now w s ->
  exists w',
    overdue_step s acc w =
      (Ok (acc + if overdue_incomplete now s then 15 else 0), w') /\
    later w w'.
Proof.
  intros Hnow. unfold overdue_step, overdue_incomplete, due_before.
  unfold agrees in Hnow.
  destruct (s !! "due_date") as [[| x | d | l]|]; cbn [default from_option id andb];
    try (exists w; rewrite Z.add_0_r; split; [reflexivity | apply later_refl]).
  exists (advance w). split; [|apply later_advance].
  unfold bind, utcnow. fold (advance w).
  rewrite (Hnow (ticks w) d) by (lia || reflexivity).
  rewrite status_not_done.
  destruct ((d <? now) && negb (is_done s)); [reflexivity|].
  rewrite Z.add_0_r. reflexivity.
Qed.

Lemma len_cons {A} (x : A) (l : list A) : len (x :: l) = 1 + len l.
Proof. unfold len. simpl length. lia. Qed.

Lemma overdue_steps_reads (now : datetime.t) (l : list step_doc) :
  forall (acc : Z) (w : world),
    Forall (agrees now w) l ->
    exists w',
      overdue_steps l acc w =
        (Ok (acc + 15 * len (List.filter (overdue_incomplete now) l)), w') /\
      later w w'.
Proof.
  induction l as [|s l IH]; intros acc w Hnow.
  - exists w. split; [|apply later_refl].
    simpl. unfold ret, len. simpl. rewrite Z.add_0_r. reflexivity.
  - apply Forall_cons in Hnow as [Hs0 Hl0].
    destruct (overdue_step_reads now s acc w Hs0) as (w1 & Hs & Hl1).
    assert (Hl0' : Forall (agrees now w1) l).
    { eapply Forall_impl; [exact Hl0|].
      intros x. apply agrees_later. exact Hl1. }
    destruct (IH (acc + if overdue_incomplete now s then 15 else 0) w1 Hl0')
      as (w2 & Hr & Hl2).
    exists w2. split; [|exact (later_trans _ _ _ Hl1 Hl2)].
    cbn [overdue_steps]. unfold bind at 1. rewrite Hs, Hr.
    cbn [List.filter].
    destruct (overdue_incomplete now s); [rewrite len_cons|];
      f_equal; f_equal; lia.
Qed.

Lemma overdue_workflows_reads (now : datetime.t) (wfs : list workflow_doc) :
  forall (acc : Z) (w : world),
    Forall (fun wf => Forall (agrees now w) (default [] (wd_steps wf))) wfs ->
    exists w',
      overdue_workflows wfs acc w =
        (Ok (acc + 15 * len (List.filter (overdue_incomplete now) (all_steps wfs))),
         w') /\
      later w w'.
Proof.
  induction wfs as [|wf wfs IH]; intros acc w Hnow.
  - exists w. split; [|apply later_refl].
    simpl. unfold ret, len. simpl. rewrite Z.add_0_r. reflexivity.
  - apply Forall_cons in Hnow as [Hwf0 Hwfs0].
    destruct (overdue_steps_reads now (default [] (wd_steps wf)) acc w Hwf0)
      as (w1 & Hs & Hl1).
    assert (Hwfs0' : Forall (fun wf => Forall (agrees now w1)
                                         (default [] (wd_steps wf))) wfs).
    { eapply Forall_impl; [exact Hwfs0|].
      intros x Hx. eapply Forall_impl; [exact Hx|].
      intros y. apply agrees_later. exact Hl1. }
    destruct (IH (acc + 15 * len (List.filter (overdue_incomplete now)
                                    (default [] (wd_steps wf)))) w1 Hwfs0')
      as (w2 & Hr & Hl2).
    exists w2. split; [|exact (later_trans _ _ _ Hl1 Hl2)].
    cbn [overdue_workflows]. unfold bind at 1. rewrite Hs, Hr.
    unfold all_steps. cbn [map concat].
    rewrite List.filter_app. unfold len. rewrite length_app.
    f_equal; f_equal; lia.
Qed.

Lemma clock_reads_client (now : datetime.t) (w : world) (c : client_doc) :
  clock_reads now w ->
  Forall (fun wf => Forall (agrees now w) (default [] (wd_steps wf)))
    (client_workflows w c).
Proof.
  intros Hnow. apply List.Forall_forall. intros wf Hwf.
  apply List.filter_In in Hwf as [Hwf _].
  apply List.Forall_forall. intros s Hs. exact (Hnow wf s Hwf Hs).
Qed.

Lemma scored_later (now : datetime.t) (w w' : world) (c : client_doc)
    (item : risk_item) :
  later w w' -> scored now w' c item -> scored now w c item.
Proof.
  intros (_ & _ & _ & Hwf & Hdoc).
  unfold scored, overdue_penalty, overdue_count, document_count,
    client_documents, client_workflows.
  rewrite Hwf, Hdoc. exact (fun H => H).
Qed.

Lemma risk_level_cases (score : Z) :
  let risk := if 85 <=? score then "high"
              else if 70 <=? score then "medium" else "low" in
  (risk = "high" <-> 85 <= score) /\
  (risk = "medium" <-> 70 <= score < 85) /\
  (risk = "low" <-> score < 70).
Proof.
  cbv zeta.
  destruct (Z.leb_spec 85 score); [|destruct (Z.leb_spec 70 score)];
    repeat split; intros; try discriminate; try lia; reflexivity.
Qed.

Lemma predictive_client_reads (now : datetime.t) (c : client_doc) (w : world) :
  clock_reads now w ->
  exists item w',
    predictive_client c w = (Ok item, w') /\ later w w' /\ scored now w c item.
Proof.
  intros Hnow. unfold predictive_client.
  unfold bind at 1. unfold get_world at 1.
  fold (client_documents w c). fold (client_workflows w c).
  destruct (overdue_workflows_reads now (client_workflows w c) 0 w
              (clock_reads_client now w c Hnow))
    as (w' & Hrun & Hlater).
  unfold bind at 1. rewrite Hrun. unfold ret.
  eexists. exists w'. split; [reflexivity|]. split; [exact Hlater|].
  unfold scored. cbn [ri_client risk_score risk_level documents open_workflows].
  split; [reflexivity|].
  split; [reflexivity|].
  pose proof (risk_level_cases
    (Z.min 100 (50 + Z.max 0 (5 - len (client_documents w c)) * 10 +
                (0 + 15 * len (List.filter (overdue_incomplete now)
                                 (all_steps (client_workflows w c)))))))
    as (Hh & Hm & Hl).
  cbv zeta in Hh, Hm, Hl.
  split; [exact Hh|]. split; [exact Hm|]. split; [exact Hl|].
  split; reflexivity.
Qed.

Lemma predictive_loop_reads (now : datetime.t) (clients : list client_doc) :
  forall (out : list risk_item) (w : world),
    clock_reads now w ->
    exists items w',
      predictive_loop clients out w = (Ok (out ++ items), w') /\
      later w w' /\
      Forall2 (scored now w) clients items.
Proof.
  induction clients as [|c clients IH]; intros out w Hnow.
  - exists [], w. rewrite app_nil_r.
    split; [reflexivity|]. split; [apply later_refl | constructor].
  - destruct (predictive_client_reads now c w Hnow) as (item & w1 & Hc & Hl1 & Hsc).
    destruct (IH (out ++ [item]) w1 (clock_reads_later now w w1 Hnow Hl1))
      as (items & w2 & Hr & Hl2 & Hall).
    exists (item :: items), w2.
    split.
    { cbn [predictive_loop]. unfold bind at 1. rewrite Hc, Hr.
      rewrite <- app_assoc. reflexivity. }
    split; [exact (later_trans _ _ _ Hl1 Hl2)|].
    constructor; [exact Hsc|].
    eapply Forall2_impl; [exact Hall|].
    intros c' item' H. exact (scored_later now w w1 c' item' Hl1 H).
Qed.

(** C5. The endpoint does not reach the risk rules it is written to
    apply: its first statement calls [db.client.find()], which raises
    [TypeError], so for every database and every clock the request
    fails before a client is scored, with nothing read from the clock
    and nothing written.  This is so at the sample world too, whose
    first client has 2 documents and exactly one overdue step that is
    not done: the endpoint returns no entry where the rules give the
    score 95 and the level "high". *)
Theorem predictive_clients_raises (w : world) :
  (exists message : string,
      predictive_clients w = (Raise (TypeError message), w)) /\
  (forall (out : list risk_item) (w' : world),
      predictive_clients w <> (Ok out, w')) /\
  document_count Sample.audit_world Sample.gst_client = 2 /\
  overdue_count Sample.march_2024 Sample.audit_world Sample.gst_client = 1 /\
  fst (predictive_clients Sample.audit_world)
    = Raise (TypeError ("'Database' object is not callable. If you meant to call the "
                        +:+ "'find' method on a 'MongoClient' object it is failing "
                        +:+ "because no such method exists.")).
Proof.
  split; [eexists; reflexivity|].
  split; [intros out w' H; discriminate H|].
  split; [vm_compute; reflexivity|].
  split; vm_compute; reflexivity.
Qed.


End RiskScore.

(** ** The theorems at the sample data *)

Lemma build_selects_family_sample :
  client_type_ok Sample.gst_client /\
  exists wf,
    build_workflow_for_client Sample.gst_client Sample.empty_world
      = (Ok wf, advance Sample.empty_world) /\
    map key (steps wf) = gst_keys.
Proof.
  assert (Hok : client_type_ok Sample.gst_client) by (vm_compute; discriminate).
  split; [exact Hok|].
  destruct (build_selects_family Sample.gst_client Sample.empty_world Hok)
    as (wf & Hrun & Hgst & _).
  exists wf. split; [exact Hrun|]. apply Hgst.
  exists "", "G"%char, "S"%char, "T"%char, "".
  split; [reflexivity | auto].
Defined.

Lemma build_due_dates_sample :
  client_type_ok Sample.gst_client /\
  reading Sample.empty_world = datetime.make 2024 1 1 0 0 0 /\
  exists wf,
    build_workflow_for_client Sample.gst_client Sample.empty_world
      = (Ok wf, advance Sample.empty_world) /\
    due_date <$> step_by_key "collect_gstr" (steps wf)
      = Some (Some (datetime.make 2024 1 15 0 0 0)) /\
    due_date <$> step_by_key "partner_signoff" (steps wf)
      = Some (Some (datetime.make 2024 2 4 0 0 0)).
Proof.
  assert (Hok : client_type_ok Sample.gst_client) by (vm_compute; discriminate).
  split; [exact Hok|]. split; [reflexivity|].
  destruct (build_due_dates Sample.gst_client Sample.empty_world Hok)
    as (wf & Hrun & _ & _ & _ & Hex).
  exists wf. split; [exact Hrun|]. apply Hex; [|reflexivity].
  exists "", "G"%char, "S"%char, "T"%char, "".
  split; [reflexivity | auto].
Defined.

Lemma build_dependencies_precede_sample :
  client_type_ok Sample.bare_client /\
  exists wf,
    build_workflow_for_client Sample.bare_client Sample.empty_world
      = (Ok wf, advance Sample.empty_world) /\
    deps_precede (steps wf) /\ deps_forward_only (steps wf).
Proof.
  assert (Hok : client_type_ok Sample.bare_client) by (vm_compute; discriminate).
  split; [exact Hok|].
  exact (build_dependencies_precede Sample.bare_client Sample.empty_world Hok).
Defined.

Lemma build_copies_client_sample :
  client_type_ok Sample.gst_client /\
  exists wf,
    build_workflow_for_client Sample.gst_client Sample.empty_world
      = (Ok wf, advance Sample.empty_world) /\
    version wf = "v1" /\
    client_id wf = "65a1b2c3d4e5f60718293a4b" /\
    client_type wf = "GST" /\
    fiscal_year wf = Some "FY 2024-25".
Proof.
  assert (Hok : client_type_ok Sample.gst_client) by (vm_compute; discriminate).
  split; [exact Hok|].
  destruct (build_copies_client Sample.gst_client Sample.empty_world Hok)
    as (wf & Hrun & Hv & _ & Hid & Hct & _ & Hfy & _).
  exists wf. split; [exact Hrun|]. split; [exact Hv|]. split; [exact Hid|].
  split; [apply Hct | apply Hfy]; vm_compute; reflexivity.
Defined.

Lemma gst_description_fiscal_year_sample :
  client_type_ok Sample.gst_client /\
  contains_gst_ci (client_type_text Sample.gst_client) /\
  exists wf s,
    build_workflow_for_client Sample.gst_client Sample.empty_world
      = (Ok wf, advance Sample.empty_world) /\
    step_by_key "collect_gstr" (steps wf) = Some s /\
    description s = Some "Collect GST returns for FY 2024-25".
Proof.
  assert (Hok : client_type_ok Sample.gst_client) by (vm_compute; discriminate).
  assert (Hci : contains_gst_ci (client_type_text Sample.gst_client)).
  { exists "", "G"%char, "S"%char, "T"%char, "".
    split; [reflexivity | auto]. }
  split; [exact Hok|]. split; [exact Hci|].
  destruct (gst_description_fiscal_year Sample.gst_client Sample.empty_world Hok Hci)
    as (wf & s & Hrun & Hs & Hfy & _).
  exists wf, s. split; [exact Hrun|]. split; [exact Hs|].
  apply (Hfy "FY 2024-25"); [vm_compute; reflexivity | discriminate].
Defined.

Lemma update_step_status_frame_sample :
  ObjectId_parse "65a1b2c3d4e5f60718293a5a" = Some Sample.workflow_id /\
  find_one_workflow (db_workflow Sample.audit_world) Sample.workflow_id
    = Some Sample.stored_workflow /\
  wd_steps Sample.stored_workflow
    = Some ([Sample.collect_gstr] ++ Sample.reconcile_ledgers
              :: [Sample.variance_analysis; Sample.draft_report]) /\
  Forall (fun x => ~ has_key "reconcile_ledgers" x) [Sample.collect_gstr] /\
  has_key "reconcile_ledgers" Sample.reconcile_ledgers /\
  exists (w1 w2 : world) (s1 s2 : step_doc),
    update_step_status "65a1b2c3d4e5f60718293a5a" "reconcile_ledgers" "done"
      Sample.audit_world = (Ok {| ok := true |}, w1) /\
    find_one_workflow (db_workflow w1) Sample.workflow_id =
      Some (with_steps Sample.stored_workflow
              [Sample.collect_gstr; s1; Sample.variance_analysis;
               Sample.draft_report]) /\
    s1 !! "status" = Some (VStr "done") /\
    update_step_status "65a1b2c3d4e5f60718293a5a" "reconcile_ledgers" "done" w1
      = (Ok {| ok := true |}, w2) /\
    s2 !! "status" = s1 !! "status".
Proof.
  assert (H1 : ObjectId_parse "65a1b2c3d4e5f60718293a5a" = Some Sample.workflow_id)
    by (vm_compute; reflexivity).
  assert (H2 : find_one_workflow (db_workflow Sample.audit_world) Sample.workflow_id
               = Some Sample.stored_workflow) by (vm_compute; reflexivity).
  assert (H3 : wd_steps Sample.stored_workflow
               = Some ([Sample.collect_gstr] ++ Sample.reconcile_ledgers
                         :: [Sample.variance_analysis; Sample.draft_report]))
    by reflexivity.
  assert (H4 : Forall (fun x => ~ has_key "reconcile_ledgers" x) [Sample.collect_gstr]).
  { repeat constructor. intros H. vm_compute in H. discriminate H. }
  assert (H5 : has_key "reconcile_ledgers" Sample.reconcile_ledgers)
    by (vm_compute; reflexivity).
  split; [exact H1|]. split; [exact H2|]. split; [exact H3|].
  split; [exact H4|]. split; [exact H5|].
  destruct (update_step_status_frame "65a1b2c3d4e5f60718293a5a" "reconcile_ledgers"
              "done" Sample.audit_world Sample.workflow_id Sample.stored_workflow
              [Sample.collect_gstr] [Sample.variance_analysis; Sample.draft_report]
              Sample.reconcile_ledgers H1 H2 H3 H4 H5)
    as (w1 & w2 & dpre & dpost & s1 & s2 & Hrun & _ & _ & Hfind & _ & _ & _ & _
        & Hst & _ & _ & Hrun2 & _ & _ & _ & Hst2 & _).
  exists w1, w2, s1, s2.
  split; [exact Hrun|]. split; [exact Hfind|].
  split; [exact Hst|]. split; [exact Hrun2 | exact Hst2].
Defined.

Lemma update_step_status_failures_sample :
  update_step_status "65a1b2c3d4e5f60718293a5a" "nonexistent_key" "done"
    Sample.audit_world = (Raise StepNotFound, Sample.audit_world) /\
  update_step_status "ffffffffffffffffffffffff" "collect_gstr" "done"
    Sample.audit_world = (Raise WorkflowNotFound, Sample.audit_world) /\
  (forall e w',
      update_step_status "not-an-id" "collect_gstr" "done" Sample.audit_world
        = (Raise e, w') -> w' = Sample.audit_world).
Proof.
  split; [|split].
  - apply (proj1 (update_step_status_failures "65a1b2c3d4e5f60718293a5a"
                    "nonexistent_key" "done" Sample.audit_world)
             Sample.workflow_id Sample.stored_workflow).
    + vm_compute. reflexivity.
    + vm_compute. reflexivity.
    + repeat constructor; intros H; vm_compute in H; discriminate H.
  - apply (proj1 (proj2 (update_step_status_failures "ffffffffffffffffffffffff"
                           "collect_gstr" "done" Sample.audit_world))
             "ffffffffffffffffffffffff").
    + vm_compute. reflexivity.
    + vm_compute. reflexivity.
  - exact (proj2 (proj2 (update_step_status_failures "not-an-id" "collect_gstr"
                           "done" Sample.audit_world))).
Defined.

Lemma update_step_status_unvalidated_sample :
  ObjectId_parse "65A1B2C3D4E5F60718293A5A" = Some Sample.workflow_id /\
  find_one_workflow (db_workflow Sample.audit_world) Sample.workflow_id
    = Some Sample.stored_workflow /\
  wd_steps Sample.stored_workflow
    = Some ([Sample.collect_gstr; Sample.reconcile_ledgers]
              ++ Sample.variance_analysis :: [Sample.draft_report]) /\
  Forall (fun x => ~ has_key "variance_analysis" x)
    [Sample.collect_gstr; Sample.reconcile_ledgers] /\
  has_key "variance_analysis" Sample.variance_analysis /\
  Sample.reconcile_ledgers !! "status" = Some (VStr "todo") /\
  exists (w1 : world) (wf1 : workflow_doc) (s1 : step_doc),
    update_step_status "65A1B2C3D4E5F60718293A5A" "variance_analysis" "archived"
      Sample.audit_world = (Ok {| ok := true |}, w1) /\
    find_one_workflow (db_workflow w1) Sample.workflow_id = Some wf1 /\
    wd_steps wf1 = Some [Sample.collect_gstr; Sample.reconcile_ledgers; s1;
                         Sample.draft_report] /\
    s1 !! "status" = Some (VStr "archived").
Proof.
  assert (H1 : ObjectId_parse "65A1B2C3D4E5F60718293A5A" = Some Sample.workflow_id)
    by (vm_compute; reflexivity).
  assert (H2 : find_one_workflow (db_workflow Sample.audit_world) Sample.workflow_id
               = Some Sample.stored_workflow) by (vm_compute; reflexivity).
  assert (H3 : wd_steps Sample.stored_workflow
               = Some ([Sample.collect_gstr; Sample.reconcile_ledgers]
                         ++ Sample.variance_analysis :: [Sample.draft_report]))
    by reflexivity.
  assert (H4 : Forall (fun x => ~ has_key "variance_analysis" x)
                 [Sample.collect_gstr; Sample.reconcile_ledgers]).
  { repeat constructor; intros H; vm_compute in H; discriminate H. }
  assert (H5 : has_key "variance_analysis" Sample.variance_analysis)
    by (vm_compute; reflexivity).
  split; [exact H1|]. split; [exact H2|]. split; [exact H3|].
  split; [exact H4|]. split; [exact H5|].
  split; [vm_compute; reflexivity|].
  destruct (update_step_status_unvalidated "65A1B2C3D4E5F60718293A5A"
              "variance_analysis" "archived" Sample.audit_world Sample.workflow_id
              Sample.stored_workflow [Sample.collect_gstr; Sample.reconcile_ledgers]
              [Sample.draft_report] Sample.variance_analysis H1 H2 H3 H4 H5)
    as (w1 & wf1 & s1 & Hrun & Hfind & Hsteps & _ & Hst).
  exists w1, wf1, s1.
  split; [exact Hrun|]. split; [exact Hfind|].
  split; [exact Hsteps | exact Hst].
Defined.


(** ** Further properties of the builder *)

Section BuilderMore.

Local Ltac family c w Hok Hgst :=
  let stps := fresh "stps" in
  let Hrun := fresh "Hrun" in
  let Hbuild := fresh "Hbuild" in
  destruct (build_run c w Hok) as (stps & Hrun & Hbuild);
  match type of Hbuild with
  | _ = (Ok ?v, _) => exists v
  end;
  split; [exact Hbuild|]; clear Hbuild;
  cbn [steps version client_id client_type fiscal_year];
  destruct (PyStr.contains "gst" (PyStr.lower (client_type_text c))) eqn:Hgst;
  injection Hrun as <-.

Local Ltac position i Hi :=
  first [ discriminate Hi
        | destruct i as [|i];
          [ injection Hi as <- | cbn in Hi; position i Hi ] ].

Local Ltac in_days := unfold datetime.timedelta, datetime.us_per_day; lia.

(** X1. In every generated workflow the step keys are pairwise
    distinct and the dependencies form one chain: the first step depends
    on nothing and every other step on exactly the step before it. *)
Theorem build_keys_unique_chain (c : client_doc) (w : world) :
  client_type_ok c ->
  exists wf,
    build_workflow_for_client c w = (Ok wf, advance w) /\
    List.NoDup (map key (steps wf)) /\
    linear_chain (steps wf).
Proof.
  intros Hok. family c w Hok Hgst.
  - split.
    + cbn. repeat constructor; cbn; intuition discriminate.
    + split.
      * intros s [= <-]. reflexivity.
      * intros i s s' Hi Hj. position i Hi; cbn in Hj;
          try discriminate Hj; injection Hj as <-; reflexivity.
  - split.
    + cbn. repeat constructor; cbn; intuition discriminate.
    + split.
      * intros s [= <-]. reflexivity.
      * intros i s s' Hi Hj. position i Hi; cbn in Hj;
          try discriminate Hj; injection Hj as <-; reflexivity.
Qed.

(** X2. Due dates grow strictly along the list, and every step is due
    no sooner than 7 days and no later than 34 days after the clock
    reading (22 days for the Generic family). *)
Theorem build_due_dates_window (c : client_doc) (w : world) :
  client_type_ok c ->
  exists wf,
    build_workflow_for_client c w = (Ok wf, advance w) /\
    due_dates_increasing (steps wf) /\
    (forall s, In s (steps wf) ->
       exists d, due_date s = Some d /\
                 reading w + datetime.timedelta 7 <= d <= reading w + datetime.timedelta 34) /\
    (~ contains_gst_ci (client_type_text c) ->
     forall s, In s (steps wf) ->
       exists d, due_date s = Some d /\ d <= reading w + datetime.timedelta 22).
Proof.
  intros Hok. family c w Hok Hgst.
  - split.
    { intros i j s s' Hij Hi Hj. position i Hi; position j Hj; try lia;
        do 2 eexists; (split; [reflexivity|]); (split; [reflexivity|]);
        fold (reading w); in_days. }
    split.
    { intros s Hs. cbn in Hs.
      repeat (destruct Hs as [<- | Hs]); try contradiction;
        eexists; (split; [reflexivity|]); fold (reading w); in_days. }
    intros Hn. apply contains_gst_lower in Hgst. contradiction.
  - split.
    { intros i j s s' Hij Hi Hj. position i Hi; position j Hj; try lia;
        do 2 eexists; (split; [reflexivity|]); (split; [reflexivity|]);
        fold (reading w); in_days. }
    split.
    { intros s Hs. cbn in Hs.
      repeat (destruct Hs as [<- | Hs]); try contradiction;
        eexists; (split; [reflexivity|]); fold (reading w); in_days. }
    intros _ s Hs. cbn in Hs.
    repeat (destruct Hs as [<- | Hs]); try contradiction;
      eexists; (split; [reflexivity|]); fold (reading w); in_days.
Qed.

(** X3. Every generated step carries values the schema documents: a
    category and a status of the documented sets, a due date, a
    non-empty title and no assignee. *)
Theorem build_steps_schema_values (c : client_doc) (w : world) :
  client_type_ok c ->
  exists wf,
    build_workflow_for_client c w = (Ok wf, advance w) /\
    forall s, In s (steps wf) ->
      In (category s) categories /\ In (status s) statuses /\
      due_date s <> None /\ title s <> "" /\ assigned_to s = None.
Proof.
  intros Hok. family c w Hok Hgst; intros s Hs; cbn in Hs;
    repeat (destruct Hs as [<- | Hs]); try contradiction;
    cbn; repeat split; auto 10; discriminate.
Qed.

(** X4. The steps depend on the client only through the template family
    and, for the GST family, the [fiscal_year]: two Generic clients get
    the same steps at the same clock reading, and so do two GST clients
    with the same stored [fiscal_year]. *)
Theorem build_steps_depend_on_family (c1 c2 : client_doc) (w1 w2 : world) :
  client_type_ok c1 -> client_type_ok c2 ->
  reading w1 = reading w2 ->
  (contains_gst_ci (client_type_text c1) <-> contains_gst_ci (client_type_text c2)) ->
  (contains_gst_ci (client_type_text c1) ->
   cd_fields c1 !! "fiscal_year" = cd_fields c2 !! "fiscal_year") ->
  exists wf1 wf2,
    build_workflow_for_client c1 w1 = (Ok wf1, advance w1) /\
    build_workflow_for_client c2 w2 = (Ok wf2, advance w2) /\
    steps wf1 = steps wf2.
Proof.
  intros Hok1 Hok2 Hread Hfam Hfy.
  destruct (build_run c1 w1 Hok1) as (l1 & Hrun1 & Hb1).
  destruct (build_run c2 w2 Hok2) as (l2 & Hrun2 & Hb2).
  eexists. eexists. split; [exact Hb1|]. split; [exact Hb2|].
  cbn [steps]. unfold reading in Hread.
  destruct (PyStr.contains "gst" (PyStr.lower (client_type_text c1))) eqn:H1;
    destruct (PyStr.contains "gst" (PyStr.lower (client_type_text c2))) eqn:H2.
  - injection Hrun1 as <-. injection Hrun2 as <-.
    apply contains_gst_lower in H1. specialize (Hfy H1).
    unfold client_get. rewrite Hfy, Hread. reflexivity.
  - apply contains_gst_lower in H1. apply Hfam in H1.
    apply contains_gst_lower in H1. congruence.
  - apply contains_gst_lower in H2. apply Hfam in H2.
    apply contains_gst_lower in H2. congruence.
  - injection Hrun1 as <-. injection Hrun2 as <-.
    rewrite Hread. reflexivity.
Qed.

End BuilderMore.

(** ** Further properties of the step update *)

Section StepUpdateMore.

Lemma same_but_updated_at_refl (x : step_doc) : same_but_updated_at x x.
Proof. intros f _. reflexivity. Qed.

Lemma Forall2_same_refl (l : list step_doc) : Forall2 same_but_updated_at l l.
Proof. induction l; constructor; auto using same_but_updated_at_refl. Qed.

Lemma same_with_status (st : string) (n n' : datetime.t) (x : step_doc) :
  same_but_updated_at (with_status st n x) (with_status st n' x).
Proof.
  intros f Hf. unfold with_status.
  rewrite !(lookup_insert_ne _ "updated_at") by congruence. reflexivity.
Qed.

Lemma key_with_status (st : string) (n : datetime.t) (x : step_doc) :
  with_status st n x !! "key" = x !! "key".
Proof. unfold with_status. rewrite !lookup_insert_ne by discriminate. reflexivity. Qed.

Lemma value_eq_str_other (v : value) (k1 k2 : string) :
  k1 <> k2 -> value_eq_str v k1 = true -> value_eq_str v k2 = false.
Proof.
  destruct v; simpl; try discriminate.
  intros Hne H. apply String.eqb_eq in H. subst. apply String.eqb_neq. exact Hne.
Qed.

(** The loop of the endpoint computes [set_status]. *)
Lemma update_steps_loop_set (k st : string) (l : list step_doc) (w : world) :
  update_steps_loop k st l w =
  match set_status k st (reading w) l with
  | Some l' => (Ok (true, l'), advance w)
  | None => (Ok (false, l), w)
  end.
Proof.
  induction l as [|x l IH]; [reflexivity|].
  cbn [update_steps_loop set_status].
  destruct (value_eq_str (default VNone (x !! "key")) k); [reflexivity|].
  unfold bind at 1. rewrite IH.
  destruct (set_status k st (reading w) l); reflexivity.
Qed.

Lemma set_status_Exists (k st : string) (n : datetime.t) (l : list step_doc) :
  Exists (has_key k) l -> exists l', set_status k st n l = Some l'.
Proof.
  induction 1 as [x l Hx | x l _ IH]; cbn [set_status].
  - apply value_eq_str_key in Hx. rewrite Hx. eauto.
  - destruct (value_eq_str (default VNone (x !! "key")) k); [eauto|].
    destruct IH as (l' & ->). cbn. eauto.
Qed.

(** Another time gives the same steps up to [updated_at]. *)
Lemma set_status_time (k st : string) (n n' : datetime.t) (l l1 : list step_doc) :
  set_status k st n l = Some l1 ->
  exists l2, set_status k st n' l = Some l2 /\ Forall2 same_but_updated_at l1 l2.
Proof.
  revert l1. induction l as [|x l IH]; intros l1; cbn [set_status]; [discriminate|].
  destruct (value_eq_str (default VNone (x !! "key")) k).
  - intros [= <-]. eexists. split; [reflexivity|].
    constructor; [apply same_with_status | apply Forall2_same_refl].
  - destruct (set_status k st n l) as [r|]; [|discriminate].
    intros [= <-]. destruct (IH r eq_refl) as (r' & -> & Hr).
    eexists. split; [reflexivity|].
    constructor; [apply same_but_updated_at_refl | exact Hr].
Qed.

Lemma set_status_twice (k st1 st2 : string) (n1 n2 n3 : datetime.t)
    (l l1 : list step_doc) :
  set_status k st1 n1 l = Some l1 ->
  exists l12 l2,
    set_status k st2 n2 l1 = Some l12 /\
    set_status k st2 n3 l = Some l2 /\
    Forall2 same_but_updated_at l12 l2.
Proof.
  revert l1. induction l as [|x l IH]; intros l1; cbn [set_status]; [discriminate|].
  destruct (value_eq_str (default VNone (x !! "key")) k) eqn:Hx.
  - intros [= <-]. cbn [set_status]. rewrite key_with_status, Hx.
    do 2 eexists. split; [reflexivity|]. split; [reflexivity|].
    constructor; [|apply Forall2_same_refl].
    intros f Hf. unfold with_status.
    rewrite !(lookup_insert_ne _ "updated_at") by congruence.
    destruct (decide (f = "status")) as [-> | Hne].
    + rewrite !lookup_insert_eq. reflexivity.
    + repeat (rewrite lookup_insert_ne by congruence). reflexivity.
  - destruct (set_status k st1 n1 l) as [r|]; [|discriminate].
    intros [= <-]. destruct (IH r eq_refl) as (r12 & r2 & H12 & H2 & Hr).
    cbn [set_status]. rewrite Hx, H12, H2.
    do 2 eexists. split; [reflexivity|]. split; [reflexivity|].
    constructor; [apply same_but_updated_at_refl | exact Hr].
Qed.

Lemma set_status_commute (k1 k2 st1 st2 : string) (n1 n2 n1' n2' : datetime.t)
    (l l1 l2 : list step_doc) :
  k1 <> k2 ->
  set_status k1 st1 n1 l = Some l1 ->
  set_status k2 st2 n2 l = Some l2 ->
  exists l12 l21,
    set_status k2 st2 n2' l1 = Some l12 /\
    set_status k1 st1 n1' l2 = Some l21 /\
    Forall2 same_but_updated_at l12 l21.
Proof.
  intros Hne. revert l1 l2.
  induction l as [|x l IH]; intros l1 l2; cbn [set_status]; [discriminate|].
  destruct (value_eq_str (default VNone (x !! "key")) k1) eqn:H1.
  - rewrite (value_eq_str_other _ k1 k2 Hne H1).
    intros [= <-]. destruct (set_status k2 st2 n2 l) as [r2|] eqn:Hr2; [|discriminate].
    intros [= <-].
    destruct (set_status_time k2 st2 n2 n2' l r2 Hr2) as (r2' & Hr2' & Hsame).
    cbn [set_status]. rewrite key_with_status, H1.
    rewrite (value_eq_str_other _ k1 k2 Hne H1), Hr2'.
    do 2 eexists. split; [reflexivity|]. split; [reflexivity|].
    constructor; [apply same_with_status|].
    apply Forall2_flip. eapply Forall2_impl; [exact Hsame|].
    intros a b Hab f Hf. symmetry. exact (Hab f Hf).
  - destruct (set_status k1 st1 n1 l) as [r1|] eqn:Hr1; [|discriminate].
    intros [= <-].
    destruct (value_eq_str (default VNone (x !! "key")) k2) eqn:H2.
    + intros [= <-].
      destruct (set_status_time k1 st1 n1 n1' l r1 Hr1) as (r1' & Hr1' & Hsame).
      cbn [set_status]. rewrite key_with_status, H1, H2, Hr1'.
      do 2 eexists. split; [reflexivity|]. split; [reflexivity|].
      constructor; [apply same_with_status | exact Hsame].
    + destruct (set_status k2 st2 n2 l) as [r2|] eqn:Hr2; [|discriminate].
      intros [= <-].
      destruct (IH r1 r2 eq_refl eq_refl) as (r12 & r21 & H12 & H21 & Hsame).
      cbn [set_status]. rewrite H1, H2, H12, H21.
      do 2 eexists. split; [reflexivity|]. split; [reflexivity|].
      constructor; [apply same_but_updated_at_refl | exact Hsame].
Qed.

Lemma find_one_workflow_id (coll : list workflow_doc) (o : ObjectId)
    (wf : workflow_doc) :
  find_one_workflow coll o = Some wf -> wd_id wf = o.
Proof. intros H. exact (proj1 (find_one_workflow_Some coll o wf H)). Qed.

Lemma find_one_update_one (coll : list workflow_doc) (o : ObjectId)
    (wf : workflow_doc) (l : list step_doc) :
  find_one_workflow coll o = Some wf ->
  find_one_workflow (update_one_set_steps o l coll) o = Some (with_steps wf l).
Proof.
  unfold find_one_workflow. induction coll as [|d coll IH]; [discriminate|].
  cbn [List.find update_one_set_steps].
  destruct (String.eqb (wd_id d) o) eqn:Hd.
  - intros [= <-]. cbn [List.find wd_id]. rewrite Hd. reflexivity.
  - intros H. cbn [List.find]. rewrite Hd. exact (IH H).
Qed.

Lemma update_one_twice (coll : list workflow_doc) (o : ObjectId)
    (l1 l2 : list step_doc) :
  update_one_set_steps o l2 (update_one_set_steps o l1 coll)
  = update_one_set_steps o l2 coll.
Proof.
  induction coll as [|d coll IH]; [reflexivity|].
  cbn [update_one_set_steps].
  destruct (String.eqb (wd_id d) o) eqn:Hd; cbn [update_one_set_steps wd_id];
    rewrite Hd; [reflexivity | rewrite IH; reflexivity].
Qed.

(** The successful run of the endpoint in terms of [set_status]. *)
Lemma update_step_status_set (wid k st : string) (w : world) (o : ObjectId)
    (wf : workflow_doc) (l' : list step_doc) :
  ObjectId_parse wid = Some o ->
  find_one_workflow (db_workflow w) o = Some wf ->
  set_status k st (reading w) (default [] (wd_steps wf)) = Some l' ->
  update_step_status wid k st w = (Ok {| ok := true |}, updated_world w o l').
Proof.
  intros Hparse Hfind Hset.
  unfold update_step_status, oid. rewrite Hparse.
  unfold bind at 1. unfold ret at 1.
  unfold bind at 1. unfold get_world at 1.
  rewrite Hfind. unfold bind at 1.
  rewrite update_steps_loop_set, Hset. cbn [fst snd negb].
  rewrite (find_one_workflow_id _ _ _ Hfind). reflexivity.
Qed.

(** X5. The last update wins: setting a step to [st1] and then to
    [st2] stores the same workflows as setting it to [st2] at once, up
    to the [updated_at] of the steps of that workflow. *)
Theorem update_step_status_overwrites (wid k st1 st2 : string) (w : world)
    (o : ObjectId) (wf : workflow_doc) :
  ObjectId_parse wid = Some o ->
  find_one_workflow (db_workflow w) o = Some wf ->
  Exists (has_key k) (default [] (wd_steps wf)) ->
  exists (w1 w12 w2 : world) (l12 l2 : list step_doc),
    update_step_status wid k st1 w = (Ok {| ok := true |}, w1) /\
    update_step_status wid k st2 w1 = (Ok {| ok := true |}, w12) /\
    update_step_status wid k st2 w = (Ok {| ok := true |}, w2) /\
    db_workflow w12 = update_one_set_steps o l12 (db_workflow w) /\
    db_workflow w2 = update_one_set_steps o l2 (db_workflow w) /\
    find_one_workflow (db_workflow w12) o = Some (with_steps wf l12) /\
    find_one_workflow (db_workflow w2) o = Some (with_steps wf l2) /\
    Forall2 same_but_updated_at l12 l2 /\
    db_client w12 = db_client w2 /\
    db_document w12 = db_document w2.
Proof.
  intros Hparse Hfind Hex.
  destruct (set_status_Exists k st1 (reading w) _ Hex) as (l1 & Hl1).
  destruct (set_status_twice k st1 st2 (reading w) (reading (updated_world w o l1))
              (reading w) _ l1 Hl1) as (l12 & l2 & H12 & H2 & Hsame).
  exists (updated_world w o l1), (updated_world (updated_world w o l1) o l12),
    (updated_world w o l2), l12, l2.
  split; [exact (update_step_status_set wid k st1 w o wf l1 Hparse Hfind Hl1)|].
  split.
  { apply (update_step_status_set wid k st2 _ o (with_steps wf l1) l12 Hparse).
    - cbn [updated_world db_workflow]. apply find_one_update_one. exact Hfind.
    - exact H12. }
  split; [exact (update_step_status_set wid k st2 w o wf l2 Hparse Hfind H2)|].
  split; [cbn [updated_world db_workflow]; apply update_one_twice|].
  split; [reflexivity|].
  split.
  { cbn [updated_world db_workflow]. rewrite update_one_twice.
    apply find_one_update_one. exact Hfind. }
  split; [cbn [updated_world db_workflow]; apply find_one_update_one; exact Hfind|].
  split; [exact Hsame|]. split; reflexivity.
Qed.

(** X6. Updates of steps with different keys commute: either order
    stores the same workflows, up to the [updated_at] of the steps of
    that workflow. *)
Theorem update_step_status_commutes (wid k1 k2 st1 st2 : string) (w : world)
    (o : ObjectId) (wf : workflow_doc) :
  ObjectId_parse wid = Some o ->
  find_one_workflow (db_workflow w) o = Some wf ->
  Exists (has_key k1) (default [] (wd_steps wf)) ->
  Exists (has_key k2) (default [] (wd_steps wf)) ->
  k1 <> k2 ->
  exists (w1 w12 w2 w21 : world) (l12 l21 : list step_doc),
    update_step_status wid k1 st1 w = (Ok {| ok := true |}, w1) /\
    update_step_status wid k2 st2 w1 = (Ok {| ok := true |}, w12) /\
    update_step_status wid k2 st2 w = (Ok {| ok := true |}, w2) /\
    update_step_status wid k1 st1 w2 = (Ok {| ok := true |}, w21) /\
    db_workflow w12 = update_one_set_steps o l12 (db_workflow w) /\
    db_workflow w21 = update_one_set_steps o l21 (db_workflow w) /\
    find_one_workflow (db_workflow w12) o = Some (with_steps wf l12) /\
    find_one_workflow (db_workflow w21) o = Some (with_steps wf l21) /\
    Forall2 same_but_updated_at l12 l21 /\
    db_client w12 = db_client w21 /\
    db_document w12 = db_document w21 /\
    ticks w12 = ticks w21.
Proof.
  intros Hparse Hfind Hex1 Hex2 Hne.
  destruct (set_status_Exists k1 st1 (reading w) _ Hex1) as (l1 & Hl1).
  destruct (set_status_Exists k2 st2 (reading w) _ Hex2) as (l2 & Hl2).
  destruct (set_status_commute k1 k2 st1 st2 (reading w) (reading w)
              (reading (updated_world w o l2)) (reading (updated_world w o l1))
              _ l1 l2 Hne Hl1 Hl2) as (l12 & l21 & H12 & H21 & Hsame).
  exists (updated_world w o l1), (updated_world (updated_world w o l1) o l12),
    (updated_world w o l2), (updated_world (updated_world w o l2) o l21), l12, l21.
  split; [exact (update_step_status_set wid k1 st1 w o wf l1 Hparse Hfind Hl1)|].
  split.
  { apply (update_step_status_set wid k2 st2 _ o (with_steps wf l1) l12 Hparse).
    - cbn [updated_world db_workflow]. apply find_one_update_one. exact Hfind.
    - exact H12. }
  split; [exact (update_step_status_set wid k2 st2 w o wf l2 Hparse Hfind Hl2)|].
  split.
  { apply (update_step_status_set wid k1 st1 _ o (with_steps wf l2) l21 Hparse).
    - cbn [updated_world db_workflow]. apply find_one_update_one. exact Hfind.
    - exact H21. }
  split; [cbn [updated_world db_workflow]; apply update_one_twice|].
  split; [cbn [updated_world db_workflow]; apply update_one_twice|].
  split.
  { cbn [updated_world db_workflow]. rewrite update_one_twice.
    apply find_one_update_one. exact Hfind. }
  split.
  { cbn [updated_world db_workflow]. rewrite update_one_twice.
    apply find_one_update_one. exact Hfind. }
  split; [exact Hsame|]. repeat split; reflexivity.
Qed.

End StepUpdateMore.

(** ** Further properties of the predictive tracker *)

Section RiskScoreMore.

Lemma len_nonneg {A} (l : list A) : 0 <= len l.
Proof. unfold len. lia. Qed.

Lemma len_app {A} (l1 l2 : list A) : len (l1 ++ l2) = len l1 + len l2.
Proof. unfold len. rewrite length_app. lia. Qed.

Lemma overdue_step_any (s : step_doc) (acc : Z) (w : world) :
  exists acc' w',
    overdue_step s acc w = (Ok acc', w') /\ acc <= acc' <= acc + 15 /\ later w w'.
Proof.
  unfold overdue_step.
  destruct (default VNone (s !! "due_date")) as [| x | d | l];
    try (exists acc, w; split; [reflexivity|]; split; [lia | apply later_refl]).
  unfold bind, utcnow. fold (advance w).
  destruct ((d <? clock w (ticks w))
            && negb (value_eq_str (default (VStr "todo") (s !! "status")) "done"));
    eexists; exists (advance w); (split; [reflexivity|]);
    (split; [lia | apply later_advance]).
Qed.

Lemma overdue_steps_any (l : list step_doc) :
  forall (acc : Z) (w : world),
  exists acc' w',
    overdue_steps l acc w = (Ok acc', w') /\
    acc <= acc' <= acc + 15 * len l /\ later w w'.
Proof.
  induction l as [|s l IH]; intros acc w.
  - exists acc, w. split; [reflexivity|]. split; [unfold len; simpl; lia|].
    apply later_refl.
  - destruct (overdue_step_any s acc w) as (a1 & w1 & Hs & Hb1 & Hl1).
    destruct (IH a1 w1) as (a2 & w2 & Hr & Hb2 & Hl2).
    exists a2, w2. cbn [overdue_steps]. unfold bind at 1. rewrite Hs, Hr.
    split; [reflexivity|]. split; [rewrite len_cons; lia|].
    exact (later_trans _ _ _ Hl1 Hl2).
Qed.

Lemma overdue_workflows_any (wfs : list workflow_doc) :
  forall (acc : Z) (w : world),
  exists acc' w',
    overdue_workflows wfs acc w = (Ok acc', w') /\
    acc <= acc' <= acc + 15 * len (all_steps wfs) /\ later w w'.
Proof.
  induction wfs as [|wf wfs IH]; intros acc w.
  - exists acc, w. split; [reflexivity|]. split; [unfold len; simpl; lia|].
    apply later_refl.
  - destruct (overdue_steps_any (default [] (wd_steps wf)) acc w)
      as (a1 & w1 & Hs & Hb1 & Hl1).
    destruct (IH a1 w1) as (a2 & w2 & Hr & Hb2 & Hl2).
    exists a2, w2. cbn [overdue_workflows]. unfold bind at 1. rewrite Hs, Hr.
    split; [reflexivity|].
    split; [|exact (later_trans _ _ _ Hl1 Hl2)].
    unfold all_steps in *. cbn [map concat]. rewrite len_app. lia.
Qed.

Lemma rated_later (w w' : world) (c : client_doc) (item : risk_item) :
  later w w' -> rated w' c item -> rated w c item.
Proof.
  intros (_ & _ & _ & Hwf & Hdoc).
  unfold rated, document_count, client_documents, client_workflows.
  rewrite Hwf, Hdoc. exact (fun H => H).
Qed.

Lemma predictive_client_any (c : client_doc) (w : world) :
  exists item w',
    predictive_client c w = (Ok item, w') /\ later w w' /\ rated w c item.
Proof.
  unfold predictive_client.
  unfold bind at 1. unfold get_world at 1.
  fold (client_documents w c). fold (client_workflows w c).
  destruct (overdue_workflows_any (client_workflows w c) 0 w)
    as (ov & w' & Hrun & Hb & Hlater).
  unfold bind at 1. rewrite Hrun. unfold ret.
  eexists. exists w'. split; [reflexivity|]. split; [exact Hlater|].
  unfold rated. cbn [ri_client risk_score risk_level documents open_workflows].
  split; [reflexivity|]. split; [reflexivity|]. split; [reflexivity|].
  split; [exists ov; split; [lia | reflexivity]|].
  exact (risk_level_cases
           (Z.min 100 (50 + Z.max 0 (5 - len (client_documents w c)) * 10 + ov))).
Qed.

Lemma predictive_loop_any (clients : list client_doc) :
  forall (out : list risk_item) (w : world),
  exists items w',
    predictive_loop clients out w = (Ok (out ++ items), w') /\
    later w w' /\
    Forall2 (rated w) clients items.
Proof.
  induction clients as [|c clients IH]; intros out w.
  - exists [], w. rewrite app_nil_r.
    split; [reflexivity|]. split; [apply later_refl | constructor].
  - destruct (predictive_client_any c w) as (item & w1 & Hc & Hl1 & Hr).
    destruct (IH (out ++ [item]) w1) as (items & w2 & Hrun & Hl2 & Hall).
    exists (item :: items), w2.
    split.
    { cbn [predictive_loop]. unfold bind at 1. rewrite Hc, Hrun.
      rewrite <- app_assoc. reflexivity. }
    split; [exact (later_trans _ _ _ Hl1 Hl2)|].
    constructor; [exact Hr|].
    eapply Forall2_impl; [exact Hall|].
    intros c' item' H. exact (rated_later w w1 c' item' Hl1 H).
Qed.

(** X7. Whatever the clock reads, the loop of the tracker over a list
    of clients never fails and never writes: it returns one entry per
    client and leaves the three collections as they are.  Every score
    lies between 50 and 100 and every level is "low", "medium" or
    "high". *)
Theorem predictive_loop_total_bounded (clients : list client_doc) (w : world) :
  exists (out : list risk_item) (w' : world),
    predictive_loop clients [] w = (Ok out, w') /\
    length out = length clients /\
    db_client w' = db_client w /\
    db_workflow w' = db_workflow w /\
    db_document w' = db_document w /\
    Forall (fun item =>
              50 <= risk_score item <= 100 /\
              In (risk_level item) ["low"; "medium"; "high"]) out.
Proof.
  destruct (predictive_loop_any clients [] w)
    as (items & w' & Hrun & (_ & _ & Hc & Hwf & Hd) & Hall).
  exists items, w'.
  split; [exact Hrun|].
  split; [symmetry; exact (Forall2_length _ _ _ Hall)|].
  split; [exact Hc|]. split; [exact Hwf|]. split; [exact Hd|].
  apply Forall_lookup. intros i item Hitem.
  destruct (Forall2_lookup_r _ _ _ _ _ Hall Hitem)
    as (c & _ & _ & _ & _ & (ov & Hov & Hscore) & Hh & Hm & Hl).
  assert (0 <= missing_docs_penalty (document_count w c))
    by (unfold missing_docs_penalty; lia).
  split; [lia|].
  cbn [In].
  destruct (Z_lt_le_dec (risk_score item) 70) as [Hlt | Hge].
  - left. symmetry. apply Hl. exact Hlt.
  - destruct (Z_lt_le_dec (risk_score item) 85) as [Hlt | Hge'].
    + right. left. symmetry. apply Hm. lia.
    + right. right. left. symmetry. apply Hh. exact Hge'.
Qed.

(** X8. In the loop of the tracker the document count alone bounds
    the level, whatever the clock and the workflows: a client with at most one document is rated
    "high" and a client with at most three is never rated "low".  A
    client whose workflows hold no steps scores 50 plus 10 per document
    missing up to five. *)
Theorem predictive_loop_few_documents (clients : list client_doc) (w : world) :
  exists (out : list risk_item) (w' : world),
    predictive_loop clients [] w = (Ok out, w') /\
    forall (i : nat) (c : client_doc),
      clients !! i = Some c ->
      exists item : risk_item,
        out !! i = Some item /\
        documents item = document_count w c /\
        (document_count w c <= 1 -> risk_level item = "high") /\
        (document_count w c <= 3 -> risk_level item <> "low") /\
        (all_steps (client_workflows w c) = [] ->
         risk_score item = 50 + Z.max 0 (5 - document_count w c) * 10).
Proof.
  destruct (predictive_loop_any clients [] w)
    as (items & w' & Hrun & _ & Hall).
  exists items, w'.
  split; [exact Hrun|].
  intros i c Hi.
  destruct (Forall2_lookup_l _ _ _ _ _ Hall Hi)
    as (item & Hitem & _ & Hdocs & _ & (ov & Hov & Hscore) & Hh & Hm & Hl).
  exists item. split; [exact Hitem|]. split; [exact Hdocs|].
  unfold missing_docs_penalty in Hscore.
  pose proof (len_nonneg (client_documents w c)) as Hn.
  fold (document_count w c) in Hn.
  split; [intros Hle; apply Hh; lia|].
  split; [intros Hle Hlow; apply Hl in Hlow; lia|].
  intros Hnil. rewrite Hnil in Hov. unfold len in Hov. simpl in Hov. lia.
Qed.

(** X9. In the loop of the tracker, with [now] the time of the
    request, the level is decided by the two counts: "low" exactly for five or more documents with at most
    one overdue step or four documents with none, "high" exactly when the
    penalties add up to at least 35, and the score is capped at 100
    exactly when they add up to at least 50. *)
Theorem predictive_loop_levels (now : datetime.t) (clients : list client_doc)
    (w : world) :
  clock_reads now w ->
  exists (out : list risk_item) (w' : world),
    predictive_loop clients [] w = (Ok out, w') /\
    forall (i : nat) (c : client_doc),
      clients !! i = Some c ->
      exists item : risk_item,
        out !! i = Some item /\
        (risk_level item = "low" <->
         (5 <= document_count w c /\ overdue_count now w c <= 1) \/
         (document_count w c = 4 /\ overdue_count now w c = 0)) /\
        (risk_level item = "high" <->
         35 <= Z.max 0 (5 - document_count w c) * 10 + 15 * overdue_count now w c) /\
        (risk_score item = 100 <->
         50 <= Z.max 0 (5 - document_count w c) * 10 + 15 * overdue_count now w c).
Proof.
  intros Hnow.
  destruct (predictive_loop_reads now clients [] w Hnow)
    as (items & w' & Hrun & _ & Hall).
  exists items, w'.
  split; [exact Hrun|].
  intros i c Hi.
  destruct (Forall2_lookup_l _ _ _ _ _ Hall Hi)
    as (item & Hitem & _ & Hscore & Hh & Hm & Hl & _).
  exists item. split; [exact Hitem|].
  unfold missing_docs_penalty, overdue_penalty in Hscore.
  pose proof (len_nonneg (client_documents w c)) as Hn.
  fold (document_count w c) in Hn.
  pose proof (len_nonneg (List.filter (overdue_incomplete now)
                            (all_steps (client_workflows w c)))) as Ho.
  fold (overdue_count now w c) in Ho.
  rewrite Hl, Hh. repeat split; lia.
Qed.

Lemma overdue_done (now n : datetime.t) (x : step_doc) :
  overdue_incomplete now (with_status "done" n x) = false.
Proof.
  unfold overdue_incomplete, is_done, with_status.
  rewrite (lookup_insert_ne _ "updated_at" "status") by discriminate.
  rewrite lookup_insert_eq. cbn. apply andb_false_r.
Qed.

Lemma set_status_done_overdue (now n : datetime.t) (k : string)
    (l l' : list step_doc) :
  set_status k "done" n l = Some l' ->
  len (List.filter (overdue_incomplete now) l')
  <= len (List.filter (overdue_incomplete now) l).
Proof.
  revert l'. induction l as [|x l IH]; intros l'; cbn [set_status]; [discriminate|].
  destruct (value_eq_str (default VNone (x !! "key")) k).
  - intros [= <-]. cbn [List.filter]. rewrite overdue_done.
    destruct (overdue_incomplete now x); [rewrite len_cons|]; lia.
  - destruct (set_status k "done" n l) as [r|]; [|discriminate].
    intros [= <-]. specialize (IH r eq_refl). cbn [List.filter].
    destruct (overdue_incomplete now x); [rewrite !len_cons|]; lia.
Qed.

Lemma set_status_due_date (k st : string) (n : datetime.t) (l l' : list step_doc)
    (s' : step_doc) :
  set_status k st n l = Some l' -> In s' l' ->
  exists s, In s l /\ s' !! "due_date" = s !! "due_date".
Proof.
  revert l'. induction l as [|x l IH]; intros l'; cbn [set_status]; [discriminate|].
  destruct (value_eq_str (default VNone (x !! "key")) k).
  - intros [= <-] [<- | Hin].
    + exists x. split; [left; reflexivity|].
      unfold with_status. rewrite !lookup_insert_ne by discriminate. reflexivity.
    + exists s'. split; [right; exact Hin | reflexivity].
  - destruct (set_status k st n l) as [r|]; [|discriminate].
    intros [= <-] [<- | Hin].
    + exists x. split; [left; reflexivity | reflexivity].
    + destruct (IH r eq_refl Hin) as (s & Hs & Hd).
      exists s. split; [right; exact Hs | exact Hd].
Qed.

Lemma In_update_one (coll : list workflow_doc) (o : ObjectId) (wf d : workflow_doc)
    (l : list step_doc) :
  find_one_workflow coll o = Some wf ->
  In d (update_one_set_steps o l coll) ->
  In d coll \/ d = with_steps wf l.
Proof.
  unfold find_one_workflow. induction coll as [|x coll IH]; [discriminate|].
  cbn [List.find update_one_set_steps].
  destruct (String.eqb (wd_id x) o).
  - intros [= <-] [<- | Hin]; [right; reflexivity | left; right; exact Hin].
  - intros Hf [<- | Hin]; [left; left; reflexivity|].
    destruct (IH Hf Hin) as [H | H]; [left; right; exact H | right; exact H].
Qed.

Lemma find_one_workflow_In (coll : list workflow_doc) (o : ObjectId)
    (wf : workflow_doc) :
  find_one_workflow coll o = Some wf -> In wf coll.
Proof. intros H. exact (proj1 (List.find_some _ _ H)). Qed.

Lemma clock_reads_updated (now : datetime.t) (w : world) (o : ObjectId)
    (wf : workflow_doc) (k st : string) (l' : list step_doc) :
  clock_reads now w ->
  find_one_workflow (db_workflow w) o = Some wf ->
  set_status k st (reading w) (default [] (wd_steps wf)) = Some l' ->
  clock_reads now (updated_world w o l').
Proof.
  intros Hnow Hfind Hset d s' Hd Hs' n t Hn Ht.
  cbn [updated_world db_workflow ticks clock] in *.
  destruct (In_update_one _ _ _ _ _ Hfind Hd) as [Hin | ->].
  - apply (Hnow d s' Hin Hs' n t); [lia | exact Ht].
  - cbn [with_steps wd_steps default from_option id] in Hs'.
    destruct (set_status_due_date _ _ _ _ _ _ Hset Hs') as (s & Hs & Hdue).
    apply (Hnow wf s (find_one_workflow_In _ _ _ Hfind) Hs n t); [lia|].
    rewrite <- Hdue. exact Ht.
Qed.

Lemma overdue_after_done (now n : datetime.t) (k cid : string) (o : ObjectId)
    (wf : workflow_doc) (l' : list step_doc) (coll : list workflow_doc) :
  find_one_workflow coll o = Some wf ->
  set_status k "done" n (default [] (wd_steps wf)) = Some l' ->
  len (List.filter (overdue_incomplete now)
         (all_steps (List.filter (fun d => matches_client_id (wd_fields d) cid)
                       (update_one_set_steps o l' coll))))
  <= len (List.filter (overdue_incomplete now)
            (all_steps (List.filter (fun d => matches_client_id (wd_fields d) cid)
                          coll))).
Proof.
  unfold find_one_workflow. intros Hfind Hset.
  induction coll as [|x coll IH]; [discriminate|].
  cbn [List.find update_one_set_steps] in *.
  destruct (String.eqb (wd_id x) o).
  - injection Hfind as ->. cbn [List.filter wd_fields].
    destruct (matches_client_id (wd_fields wf) cid); [|lia].
    unfold all_steps. cbn [map concat wd_steps default from_option id].
    rewrite !List.filter_app, !len_app.
    pose proof (set_status_done_overdue now n k _ l' Hset). lia.
  - specialize (IH Hfind). cbn [List.filter].
    destruct (matches_client_id (wd_fields x) cid); [|exact IH].
    unfold all_steps in *. cbn [map concat].
    rewrite !List.filter_app, !len_app. lia.
Qed.

(** X10. Marking a step done never raises a risk score: with [now] the
    time of the request, the loop of the tracker gives every client of
    a list, after the update, at most the score it gives before it, and
    the entries show the same clients with the same document counts. *)
Theorem done_never_raises_risk (now : datetime.t) (wid k : string)
    (clients : list client_doc) (w : world) (o : ObjectId) (wf : workflow_doc) :
  ObjectId_parse wid = Some o ->
  find_one_workflow (db_workflow w) o = Some wf ->
  Exists (has_key k) (default [] (wd_steps wf)) ->
  clock_reads now w ->
  exists (w1 wa wb : world) (out out1 : list risk_item),
    update_step_status wid k "done" w = (Ok {| ok := true |}, w1) /\
    predictive_loop clients [] w = (Ok out, wa) /\
    predictive_loop clients [] w1 = (Ok out1, wb) /\
    length out1 = length out /\
    forall (i : nat) (a b : risk_item),
      out !! i = Some a -> out1 !! i = Some b ->
      ri_client b = ri_client a /\
      documents b = documents a /\
      risk_score b <= risk_score a.
Proof.
  intros Hparse Hfind Hex Hnow.
  destruct (set_status_Exists k "done" (reading w) _ Hex) as (l' & Hset).
  pose proof (clock_reads_updated now w o wf k "done" l' Hnow Hfind Hset) as Hnow1.
  destruct (predictive_loop_reads now clients [] w Hnow)
    as (out & wa & Hrun & _ & Hall).
  destruct (predictive_loop_reads now clients [] (updated_world w o l') Hnow1)
    as (out1 & wb & Hrun1 & _ & Hall1).
  exists (updated_world w o l'), wa, wb, out, out1.
  split; [exact (update_step_status_set wid k "done" w o wf l' Hparse Hfind Hset)|].
  split; [exact Hrun|].
  split; [exact Hrun1|].
  split.
  { rewrite <- (Forall2_length _ _ _ Hall1). exact (Forall2_length _ _ _ Hall). }
  intros i a b Ha Hb.
  destruct (Forall2_lookup_r _ _ _ _ _ Hall Ha)
    as (c & Hc & Hcl & Hscore & _ & _ & _ & Hdocs & _).
  destruct (Forall2_lookup_l _ _ _ _ _ Hall1 Hc)
    as (b' & Hb' & Hcl1 & Hscore1 & _ & _ & _ & Hdocs1 & _).
  assert (b' = b) by congruence. subst b'.
  split; [congruence|].
  split; [rewrite Hdocs, Hdocs1; reflexivity|].
  rewrite Hscore, Hscore1.
  assert (Hd : document_count (updated_world w o l') c = document_count w c)
    by reflexivity.
  rewrite Hd.
  pose proof (overdue_after_done now (reading w) k (ObjectId_str (cd_id c)) o wf l'
                (db_workflow w) Hfind Hset) as Hle.
  unfold overdue_penalty, overdue_count, client_workflows.
  cbn [updated_world db_workflow]. lia.
Qed.

(** X15. The loop of the tracker applies the risk rules: with [now] the
    time of the request it returns one entry per client of the list, in
    order, whose score is min(100, 50 + missing_docs_penalty +
    overdue_penalty) with missing_docs_penalty = max(0, 5 -
    documentCount) * 10 and overdue_penalty = 15 times the number of
    steps of the client's workflows that are due before [now] and not
    done; the level is "high" iff the score is at least 85, "medium" iff
    it is at least 70 and below 85, and "low" otherwise.  With 2
    documents and one such step the penalties are 30 and 15, the score
    95 and the level "high". *)
Theorem predictive_loop_scores (now : datetime.t) (clients : list client_doc)
    (w : world) :
  clock_reads now w ->
  exists (out : list risk_item) (w' : world),
    predictive_loop clients [] w = (Ok out, w') /\
    length out = length clients /\
    forall (i : nat) (c : client_doc),
      clients !! i = Some c ->
      exists item : risk_item,
        out !! i = Some item /\
        ri_client item = serialize c /\
        risk_score item =
          Z.min 100 (50 + Z.max 0 (5 - document_count w c) * 10
                     + 15 * overdue_count now w c) /\
        (risk_level item = "high" <-> 85 <= risk_score item) /\
        (risk_level item = "medium" <-> 70 <= risk_score item < 85) /\
        (risk_level item = "low" <-> risk_score item < 70) /\
        (document_count w c = 2 -> overdue_count now w c = 1 ->
         missing_docs_penalty (document_count w c) = 30 /\
         overdue_penalty now w c = 15 /\
         risk_score item = 95 /\
         risk_level item = "high").
Proof.
  intros Hnow.
  destruct (predictive_loop_reads now clients [] w Hnow)
    as (items & w' & Hrun & _ & Hall).
  exists items, w'.
  split; [exact Hrun|].
  split; [symmetry; exact (Forall2_length _ _ _ Hall)|].
  intros i c Hi.
  destruct (Forall2_lookup_l _ _ _ _ _ Hall Hi)
    as (item & Hitem & Hcl & Hscore & Hh & Hm & Hl & _).
  exists item.
  split; [exact Hitem|]. split; [exact Hcl|].
  split; [exact Hscore|].
  split; [exact Hh|]. split; [exact Hm|]. split; [exact Hl|].
  intros Hdocs Hover.
  assert (Hs : risk_score item = 95).
  { rewrite Hscore. unfold overdue_penalty. rewrite Hdocs, Hover. reflexivity. }
  split; [rewrite Hdocs; reflexivity|].
  split; [unfold overdue_penalty; rewrite Hover; reflexivity|].
  split; [exact Hs|].
  apply Hh. lia.
Qed.

End RiskScoreMore.

(** ** Properties of the assistant *)

Section Assistant.

Lemma py_or_context_type (ctx : assist_context) :
  py_or (default PyNone (ctx_client_type ctx)) "" = context_type_text ctx.
Proof.
  unfold context_type_text.
  destruct (ctx_client_type ctx) as [[|[|]]|]; reflexivity.
Qed.

(** X11. The checklist always starts with the three base items and is
    extended by the three GST items exactly when the context's
    [client_type] holds "gst" in any letter case; a missing, [None] or
    empty [client_type] gives the base items only.  For a client the
    builder accepts, the checklist is extended exactly when the builder
    selects the GST family. *)
Theorem checklist_follows_family (ctx : assist_context) :
  exists items : list string,
    ai_assist "checklist" ctx = Ok (Items items) /\
    take 3 items = base_checklist /\
    (contains_gst_ci (context_type_text ctx) <->
     items = base_checklist ++ gst_checklist) /\
    (~ contains_gst_ci (context_type_text ctx) <-> items = base_checklist) /\
    (ctx_client_type ctx = None \/ ctx_client_type ctx = Some PyNone \/
     ctx_client_type ctx = Some (PyStr "") -> items = base_checklist) /\
    (forall (c : client_doc) (w : world),
        client_type_ok c ->
        ctx_client_type ctx = cd_fields c !! "client_type" ->
        exists wf,
          build_workflow_for_client c w = (Ok wf, advance w) /\
          (length items = 6%nat <-> length (steps wf) = 5%nat) /\
          (length items = 3%nat <-> length (steps wf) = 4%nat)).
Proof.
  unfold ai_assist. cbn [String.eqb Ascii.eqb Bool.eqb]. cbv iota.
  rewrite py_or_context_type.
  assert (Hempty : ctx_client_type ctx = None \/ ctx_client_type ctx = Some PyNone \/
                   ctx_client_type ctx = Some (PyStr "") ->
                   ~ contains_gst_ci (context_type_text ctx)).
  { unfold context_type_text.
    intros [-> | [-> | ->]]; exact not_contains_gst_empty. }
  assert (Hbuild : forall (c : client_doc) (w : world),
    client_type_ok c -> ctx_client_type ctx = cd_fields c !! "client_type" ->
    exists stps,
      build_workflow_for_client c w =
        (Ok {| client_id := ObjectId_str (cd_id c);
               client_type := client_type_text c;
               fiscal_year := match client_get c "fiscal_year" with
                              | PyNone => None
                              | PyStr s => Some s
                              end;
               version := "v1"; steps := stps |}, advance w) /\
      length stps =
        if PyStr.contains "gst" (PyStr.lower (context_type_text ctx))
        then 5%nat else 4%nat).
  { intros c w Hok Hct.
    destruct (build_run c w Hok) as (stps & Hrun & Hb).
    exists stps. split; [exact Hb|].
    assert (Htxt : context_type_text ctx = client_type_text c).
    { unfold context_type_text, client_type_text. rewrite Hct. reflexivity. }
    rewrite Htxt.
    destruct (PyStr.contains "gst" (PyStr.lower (client_type_text c)));
      injection Hrun as <-; reflexivity. }
  destruct (PyStr.contains "gst" (PyStr.lower (context_type_text ctx))) eqn:Hgst.
  - apply contains_gst_lower in Hgst.
    eexists. split; [reflexivity|]. split; [reflexivity|].
    split; [split; [reflexivity | intros _; exact Hgst]|].
    split; [split; [intros H; contradiction | discriminate]|].
    split; [intros H; apply Hempty in H; contradiction|].
    intros c w Hok Hct. destruct (Hbuild c w Hok Hct) as (stps & Hb & Hlen).
    eexists. split; [exact Hb|]. cbn [steps]. rewrite Hlen.
    cbn. split; split; intros H; try reflexivity; discriminate H.
  - assert (Hn : ~ contains_gst_ci (context_type_text ctx))
      by (rewrite <- contains_gst_lower, Hgst; discriminate).
    eexists. split; [reflexivity|]. split; [reflexivity|].
    split; [split; [intros H; contradiction | discriminate]|].
    split; [split; [reflexivity | intros _; exact Hn]|].
    split; [reflexivity|].
    intros c w Hok Hct. destruct (Hbuild c w Hok Hct) as (stps & Hb & Hlen).
    eexists. split; [exact Hb|]. cbn [steps]. rewrite Hlen.
    cbn. split; split; intros H; try reflexivity; discriminate H.
Qed.

(** X12. The assistant answers the four kinds "note",
    "anomaly_summary", "checklist" and "report_draft", spelled exactly
    so, whatever the context holds, and raises 400 "Unsupported kind"
    for every other kind.  The checklist answers with items, the other
    three with text. *)
Theorem ai_assist_kinds (kind : string) (ctx : assist_context) :
  (In kind assist_kinds ->
   (kind = "checklist" -> exists items, ai_assist kind ctx = Ok (Items items)) /\
   (kind <> "checklist" -> exists text, ai_assist kind ctx = Ok (Content text))) /\
  (~ In kind assist_kinds ->
   ai_assist kind ctx = Raise (HTTPException 400 "Unsupported kind")).
Proof.
  split.
  - intros Hin. cbn in Hin.
    destruct Hin as [<- | [<- | [<- | [<- | []]]]];
      (split; [intros H; try discriminate H | intros H; try congruence]);
      unfold ai_assist; cbn [String.eqb Ascii.eqb Bool.eqb]; cbv iota;
      eexists; reflexivity.
  - intros Hn. unfold ai_assist.
    destruct (String.eqb_spec kind "note") as [-> | _].
    { exfalso. apply Hn. cbn. auto. }
    destruct (String.eqb_spec kind "anomaly_summary") as [-> | _].
    { exfalso. apply Hn. cbn. auto. }
    destruct (String.eqb_spec kind "checklist") as [-> | _].
    { exfalso. apply Hn. cbn. auto. }
    destruct (String.eqb_spec kind "report_draft") as [-> | _].
    { exfalso. apply Hn. cbn. auto. }
    reflexivity.
Qed.

Lemma anomaly_lines_map (anomalies : list (gmap string pyopt)) :
  forall lines : list string,
    anomaly_lines anomalies lines =
    lines ++ map (fun a => "- " +:+ shown a "label" "Issue"
                           +:+ ": variance " +:+ shown a "variance" "N/A"
                           +:+ " on " +:+ shown a "account" "account") anomalies.
Proof.
  assert (Hshown : forall (a : gmap string pyopt) k d,
             fmt (default (PyStr d) (a !! k)) = shown a k d).
  { intros a k d. unfold shown. destruct (a !! k) as [[|]|]; reflexivity. }
  induction anomalies as [|a rest IH]; intros lines.
  - cbn. rewrite app_nil_r. reflexivity.
  - cbn [anomaly_lines map]. rewrite IH, !Hshown, <- app_assoc. reflexivity.
Qed.

(** X13. The anomaly summary is the header line followed by one line
    per anomaly, in the order given; a field of an anomaly that is
    absent shows its fallback ("Issue", "N/A", "account") and a field
    that holds [None] shows "None".  Without anomalies the header is
    followed by the single line that reports none. *)
Theorem anomaly_summary_lines (ctx : assist_context) :
  exists body : list string,
    ai_assist "anomaly_summary" ctx
      = Ok (Content (join_lines ("Anomaly Summary:" :: body))) /\
    length body = Nat.max 1 (length (default [] (ctx_anomalies ctx))) /\
    (default [] (ctx_anomalies ctx) = [] ->
     body = ["- No material anomalies detected based on supplied data."]) /\
    (forall (i : nat) (a : gmap string pyopt),
        default [] (ctx_anomalies ctx) !! i = Some a ->
        body !! i =
        Some ("- " +:+ shown a "label" "Issue"
              +:+ ": variance " +:+ shown a "variance" "N/A"
              +:+ " on " +:+ shown a "account" "account")).
Proof.
  unfold ai_assist. cbn [String.eqb Ascii.eqb Bool.eqb]. cbv iota.
  rewrite anomaly_lines_map.
  destruct (default [] (ctx_anomalies ctx)) as [|a rest] eqn:Han.
  - eexists. split; [reflexivity|]. split; [reflexivity|].
    split; [reflexivity|]. intros i x Hi. discriminate Hi.
  - eexists. split; [reflexivity|].
    split; [cbn [length map]; rewrite length_map; lia|].
    split; [discriminate|].
    intros i x Hi. rewrite list_lookup_fmap, Hi. reflexivity.
Qed.

End Assistant.

(** ** Properties of the workflow generation endpoint *)

Section Generation.

Variable create_document : string -> Workflow -> M string.

Lemma all_hex_In (s : string) (c : ascii) :
  In c (list_ascii_of_string s) -> PyStr.is_hex_digit c = false ->
  PyStr.all_hex s = false.
Proof.
  induction s as [|x s IH]; cbn [list_ascii_of_string In PyStr.all_hex];
    [contradiction|].
  intros [-> | Hin] Hc.
  - rewrite Hc. reflexivity.
  - rewrite (IH Hin Hc). apply andb_false_r.
Qed.

Lemma malformed_id_parse (s : string) :
  malformed_id s -> ObjectId_parse s = None.
Proof.
  unfold ObjectId_parse. intros [Hlen | (c & Hin & Hhex & _)].
  - apply Nat.eqb_neq in Hlen. rewrite Hlen. reflexivity.
  - rewrite (all_hex_In s c Hin Hhex), andb_false_r. reflexivity.
Qed.

(** X14. The generation endpoint never inserts a workflow.  An
    identifier that is not 24 characters long, or that holds a character
    that is neither a hexadecimal digit nor white space, gives 400
    "Invalid id"; every identifier of 24 hexadecimal digits reaches
    [db.client.find_one], which raises [TypeError], whatever clients
    are stored.  Whatever the identifier, the endpoint returns no
    response and leaves the world untouched: the clock is not read, no
    workflow is built and the inserting helper is not run. *)
Theorem generate_workflow_never_inserts (req_client_id : string) (w : world) :
  (malformed_id req_client_id ->
   generate_workflow create_document req_client_id w
     = (Raise (HTTPException 400 "Invalid id"), w)) /\
  (forall o,
      ObjectId_parse req_client_id = Some o ->
      exists message : string,
        generate_workflow create_document req_client_id w
          = (Raise (TypeError message), w)) /\
  (forall (r : result id_response) (w' : world),
      generate_workflow create_document req_client_id w = (r, w') ->
      w' = w /\ forall resp, r <> Ok resp).
Proof.
  unfold generate_workflow, oid. split; [|split].
  - intros H. rewrite (malformed_id_parse _ H). reflexivity.
  - intros o ->. eexists. reflexivity.
  - intros r w'. destruct (ObjectId_parse req_client_id);
      cbn; intros [= <- <-]; (split; [reflexivity | discriminate]).
Qed.

End Generation.

(** ** The further properties at the sample data *)

Lemma build_keys_unique_chain_sample :
  client_type_ok Sample.gst_client /\
  exists wf,
    build_workflow_for_client Sample.gst_client Sample.empty_world
      = (Ok wf, advance Sample.empty_world) /\
    List.NoDup (map key (steps wf)) /\
    linear_chain (steps wf).
Proof.
  assert (Hok : client_type_ok Sample.gst_client) by (vm_compute; discriminate).
  split; [exact Hok|].
  exact (build_keys_unique_chain Sample.gst_client Sample.empty_world Hok).
Defined.

Lemma build_due_dates_window_sample :
  client_type_ok Sample.bare_client /\
  exists wf,
    build_workflow_for_client Sample.bare_client Sample.empty_world
      = (Ok wf, advance Sample.empty_world) /\
    due_dates_increasing (steps wf) /\
    (forall s, In s (steps wf) ->
       exists d, due_date s = Some d /\
                 datetime.make 2024 1 8 0 0 0 <= d <= datetime.make 2024 2 4 0 0 0).
Proof.
  assert (Hok : client_type_ok Sample.bare_client) by (vm_compute; discriminate).
  split; [exact Hok|].
  destruct (build_due_dates_window Sample.bare_client Sample.empty_world Hok)
    as (wf & Hrun & Hinc & Hwin & _).
  exists wf. split; [exact Hrun|]. split; [exact Hinc|]. exact Hwin.
Defined.

Lemma build_steps_schema_values_sample :
  client_type_ok Sample.gst_client /\
  exists wf,
    build_workflow_for_client Sample.gst_client Sample.empty_world
      = (Ok wf, advance Sample.empty_world) /\
    forall s, In s (steps wf) ->
      In (category s) categories /\ In (status s) statuses /\
      due_date s <> None /\ title s <> "" /\ assigned_to s = None.
Proof.
  assert (Hok : client_type_ok Sample.gst_client) by (vm_compute; discriminate).
  split; [exact Hok|].
  exact (build_steps_schema_values Sample.gst_client Sample.empty_world Hok).
Defined.

Lemma build_steps_depend_on_family_sample :
  client_type_ok Sample.gst_client /\
  client_type_ok Fixture.composite_client /\
  reading Sample.empty_world = reading Fixture.registry /\
  contains_gst_ci (client_type_text Sample.gst_client) /\
  contains_gst_ci (client_type_text Fixture.composite_client) /\
  cd_fields Sample.gst_client !! "fiscal_year"
    = cd_fields Fixture.composite_client !! "fiscal_year" /\
  exists wf1 wf2,
    build_workflow_for_client Sample.gst_client Sample.empty_world
      = (Ok wf1, advance Sample.empty_world) /\
    build_workflow_for_client Fixture.composite_client Fixture.registry
      = (Ok wf2, advance Fixture.registry) /\
    steps wf1 = steps wf2.
Proof.
  assert (Hok1 : client_type_ok Sample.gst_client) by (vm_compute; discriminate).
  assert (Hok2 : client_type_ok Fixture.composite_client)
    by (vm_compute; discriminate).
  assert (Hr : reading Sample.empty_world = reading Fixture.registry)
    by reflexivity.
  assert (Hc1 : contains_gst_ci (client_type_text Sample.gst_client)).
  { exists "", "G"%char, "S"%char, "T"%char, "". split; [reflexivity | auto]. }
  assert (Hc2 : contains_gst_ci (client_type_text Fixture.composite_client)).
  { exists "", "g"%char, "s"%char, "t"%char, " composite".
    split; [reflexivity | auto]. }
  assert (Hfy : cd_fields Sample.gst_client !! "fiscal_year"
                = cd_fields Fixture.composite_client !! "fiscal_year")
    by (vm_compute; reflexivity).
  split; [exact Hok1|]. split; [exact Hok2|]. split; [exact Hr|].
  split; [exact Hc1|]. split; [exact Hc2|]. split; [exact Hfy|].
  apply (build_steps_depend_on_family Sample.gst_client Fixture.composite_client
           Sample.empty_world Fixture.registry Hok1 Hok2 Hr).
  - split; intros _; assumption.
  - intros _. exact Hfy.
Defined.

Lemma update_step_status_overwrites_sample :
  ObjectId_parse "65a1b2c3d4e5f60718293a5a" = Some Sample.workflow_id /\
  find_one_workflow (db_workflow Sample.audit_world) Sample.workflow_id
    = Some Sample.stored_workflow /\
  Exists (has_key "reconcile_ledgers") (default [] (wd_steps Sample.stored_workflow)) /\
  exists (w1 w12 w2 : world) (l12 l2 : list step_doc),
    update_step_status "65a1b2c3d4e5f60718293a5a" "reconcile_ledgers" "blocked"
      Sample.audit_world = (Ok {| ok := true |}, w1) /\
    update_step_status "65a1b2c3d4e5f60718293a5a" "reconcile_ledgers" "done" w1
      = (Ok {| ok := true |}, w12) /\
    update_step_status "65a1b2c3d4e5f60718293a5a" "reconcile_ledgers" "done"
      Sample.audit_world = (Ok {| ok := true |}, w2) /\
    find_one_workflow (db_workflow w12) Sample.workflow_id
      = Some (with_steps Sample.stored_workflow l12) /\
    find_one_workflow (db_workflow w2) Sample.workflow_id
      = Some (with_steps Sample.stored_workflow l2) /\
    Forall2 same_but_updated_at l12 l2.
Proof.
  assert (H1 : ObjectId_parse "65a1b2c3d4e5f60718293a5a" = Some Sample.workflow_id)
    by (vm_compute; reflexivity).
  assert (H2 : find_one_workflow (db_workflow Sample.audit_world) Sample.workflow_id
               = Some Sample.stored_workflow) by (vm_compute; reflexivity).
  assert (H3 : Exists (has_key "reconcile_ledgers")
                 (default [] (wd_steps Sample.stored_workflow))).
  { apply Exists_cons_tl, Exists_cons_hd. vm_compute. reflexivity. }
  split; [exact H1|]. split; [exact H2|]. split; [exact H3|].
  destruct (update_step_status_overwrites "65a1b2c3d4e5f60718293a5a"
              "reconcile_ledgers" "blocked" "done" Sample.audit_world
              Sample.workflow_id Sample.stored_workflow H1 H2 H3)
    as (w1 & w12 & w2 & l12 & l2 & Ha & Hb & Hc & _ & _ & Hd & He & Hf & _).
  exists w1, w12, w2, l12, l2. auto 10.
Defined.

Lemma update_step_status_commutes_sample :
  ObjectId_parse "65a1b2c3d4e5f60718293a5a" = Some Sample.workflow_id /\
  find_one_workflow (db_workflow Sample.audit_world) Sample.workflow_id
    = Some Sample.stored_workflow /\
  Exists (has_key "reconcile_ledgers") (default [] (wd_steps Sample.stored_workflow)) /\
  Exists (has_key "collect_gstr") (default [] (wd_steps Sample.stored_workflow)) /\
  "reconcile_ledgers" <> "collect_gstr" /\
  exists (w12 w21 : world) (l12 l21 : list step_doc),
    find_one_workflow (db_workflow w12) Sample.workflow_id
      = Some (with_steps Sample.stored_workflow l12) /\
    find_one_workflow (db_workflow w21) Sample.workflow_id
      = Some (with_steps Sample.stored_workflow l21) /\
    Forall2 same_but_updated_at l12 l21 /\
    ticks w12 = ticks w21.
Proof.
  assert (H1 : ObjectId_parse "65a1b2c3d4e5f60718293a5a" = Some Sample.workflow_id)
    by (vm_compute; reflexivity).
  assert (H2 : find_one_workflow (db_workflow Sample.audit_world) Sample.workflow_id
               = Some Sample.stored_workflow) by (vm_compute; reflexivity).
  assert (H3 : Exists (has_key "reconcile_ledgers")
                 (default [] (wd_steps Sample.stored_workflow))).
  { apply Exists_cons_tl, Exists_cons_hd. vm_compute. reflexivity. }
  assert (H4 : Exists (has_key "collect_gstr")
                 (default [] (wd_steps Sample.stored_workflow))).
  { apply Exists_cons_hd. vm_compute. reflexivity. }
  assert (H5 : "reconcile_ledgers" <> "collect_gstr") by discriminate.
  split; [exact H1|]. split; [exact H2|]. split; [exact H3|].
  split; [exact H4|]. split; [exact H5|].
  destruct (update_step_status_commutes "65a1b2c3d4e5f60718293a5a"
              "reconcile_ledgers" "collect_gstr" "in_progress" "todo"
              Sample.audit_world Sample.workflow_id Sample.stored_workflow
              H1 H2 H3 H4 H5)
    as (w1 & w12 & w2 & w21 & l12 & l21 & _ & _ & _ & _ & _ & _ & Ha & Hb & Hc
        & _ & _ & Hd).
  exists w12, w21, l12, l21. auto.
Defined.

Lemma predictive_loop_few_documents_sample :
  document_count Sample.audit_world Sample.bare_client = 1 /\
  document_count Sample.audit_world Sample.gst_client = 2 /\
  exists (out : list risk_item) (w' : world) (a b : risk_item),
    predictive_loop (db_client Sample.audit_world) [] Sample.audit_world = (Ok out, w') /\
    out !! 0%nat = Some a /\ risk_level a <> "low" /\
    out !! 1%nat = Some b /\ risk_level b = "high".
Proof.
  assert (H1 : document_count Sample.audit_world Sample.bare_client = 1)
    by (vm_compute; reflexivity).
  assert (H2 : document_count Sample.audit_world Sample.gst_client = 2)
    by (vm_compute; reflexivity).
  split; [exact H1|]. split; [exact H2|].
  destruct (predictive_loop_few_documents (db_client Sample.audit_world)
              Sample.audit_world)
    as (out & w' & Hrun & Hitems).
  destruct (Hitems 0%nat Sample.gst_client eq_refl) as (a & Ha & _ & _ & Hlow & _).
  destruct (Hitems 1%nat Sample.bare_client eq_refl) as (b & Hb & _ & Hhigh & _).
  exists out, w', a, b.
  split; [exact Hrun|]. split; [exact Ha|].
  split; [apply Hlow; rewrite H2; lia|].
  split; [exact Hb|]. apply Hhigh. rewrite H1. lia.
Defined.

Lemma predictive_loop_levels_sample :
  clock_reads Sample.march_2024 Sample.audit_world /\
  exists (out : list risk_item) (w' : world) (item : risk_item),
    predictive_loop (db_client Sample.audit_world) [] Sample.audit_world = (Ok out, w') /\
    out !! 0%nat = Some item /\
    risk_level item = "high" /\
    risk_score item <> 100.
Proof.
  assert (Hnow : clock_reads Sample.march_2024 Sample.audit_world).
  { intros wf s _ _ n d _ _. reflexivity. }
  split; [exact Hnow|].
  destruct (predictive_loop_levels Sample.march_2024 (db_client Sample.audit_world)
              Sample.audit_world Hnow)
    as (out & w' & Hrun & Hitems).
  destruct (Hitems 0%nat Sample.gst_client eq_refl) as (item & Hitem & _ & Hh & Hcap).
  exists out, w', item.
  split; [exact Hrun|]. split; [exact Hitem|].
  split.
  - apply Hh. vm_compute. discriminate.
  - intros H. apply Hcap in H. vm_compute in H. apply H. reflexivity.
Defined.

Lemma done_never_raises_risk_sample :
  ObjectId_parse "65a1b2c3d4e5f60718293a5a" = Some Sample.workflow_id /\
  find_one_workflow (db_workflow Sample.audit_world) Sample.workflow_id
    = Some Sample.stored_workflow /\
  Exists (has_key "reconcile_ledgers") (default [] (wd_steps Sample.stored_workflow)) /\
  clock_reads Sample.march_2024 Sample.audit_world /\
  exists (w1 wa wb : world) (out out1 : list risk_item),
    update_step_status "65a1b2c3d4e5f60718293a5a" "reconcile_ledgers" "done"
      Sample.audit_world = (Ok {| ok := true |}, w1) /\
    predictive_loop (db_client Sample.audit_world) [] Sample.audit_world
      = (Ok out, wa) /\
    predictive_loop (db_client Sample.audit_world) [] w1 = (Ok out1, wb) /\
    length out1 = length out /\
    forall (i : nat) (a b : risk_item),
      out !! i = Some a -> out1 !! i = Some b -> risk_score b <= risk_score a.
Proof.
  assert (H1 : ObjectId_parse "65a1b2c3d4e5f60718293a5a" = Some Sample.workflow_id)
    by (vm_compute; reflexivity).
  assert (H2 : find_one_workflow (db_workflow Sample.audit_world) Sample.workflow_id
               = Some Sample.stored_workflow) by (vm_compute; reflexivity).
  assert (H3 : Exists (has_key "reconcile_ledgers")
                 (default [] (wd_steps Sample.stored_workflow))).
  { apply Exists_cons_tl, Exists_cons_hd. vm_compute. reflexivity. }
  assert (Hnow : clock_reads Sample.march_2024 Sample.audit_world).
  { intros wf s _ _ n d _ _. reflexivity. }
  split; [exact H1|]. split; [exact H2|]. split; [exact H3|]. split; [exact Hnow|].
  destruct (done_never_raises_risk Sample.march_2024 "65a1b2c3d4e5f60718293a5a"
              "reconcile_ledgers" (db_client Sample.audit_world) Sample.audit_world
              Sample.workflow_id Sample.stored_workflow H1 H2 H3 Hnow)
    as (w1 & wa & wb & out & out1 & Ha & Hb & Hc & Hlen & Hle).
  exists w1, wa, wb, out, out1.
  split; [exact Ha|]. split; [exact Hb|]. split; [exact Hc|]. split; [exact Hlen|].
  intros i a b Hia Hib. exact (proj2 (proj2 (Hle i a b Hia Hib))).
Defined.

Lemma checklist_follows_family_sample :
  client_type_ok Sample.gst_client /\
  ctx_client_type Fixture.gst_context = cd_fields Sample.gst_client !! "client_type" /\
  exists (items : list string) (wf : Workflow),
    ai_assist "checklist" Fixture.gst_context = Ok (Items items) /\
    items = base_checklist ++ gst_checklist /\
    build_workflow_for_client Sample.gst_client Sample.empty_world
      = (Ok wf, advance Sample.empty_world) /\
    length (steps wf) = 5%nat.
Proof.
  assert (Hok : client_type_ok Sample.gst_client) by (vm_compute; discriminate).
  assert (Hct : ctx_client_type Fixture.gst_context
                = cd_fields Sample.gst_client !! "client_type")
    by (vm_compute; reflexivity).
  split; [exact Hok|]. split; [exact Hct|].
  destruct (checklist_follows_family Fixture.gst_context)
    as (items & Hrun & _ & Hgst & _ & _ & Hbuild).
  destruct (Hbuild Sample.gst_client Sample.empty_world Hok Hct)
    as (wf & Hb & Hsix & _).
  assert (Hitems : items = base_checklist ++ gst_checklist).
  { apply Hgst. exists "", "G"%char, "S"%char, "T"%char, "".
    split; [reflexivity | auto]. }
  exists items, wf.
  split; [exact Hrun|]. split; [exact Hitems|]. split; [exact Hb|].
  apply Hsix. rewrite Hitems. reflexivity.
Defined.

Lemma ai_assist_kinds_sample :
  In "report_draft" assist_kinds /\
  ~ In "Note" assist_kinds /\
  (exists text, ai_assist "report_draft" Fixture.gst_context = Ok (Content text)) /\
  ai_assist "Note" Fixture.gst_context = Raise (HTTPException 400 "Unsupported kind").
Proof.
  assert (H1 : In "report_draft" assist_kinds) by (cbn; auto).
  assert (H2 : ~ In "Note" assist_kinds).
  { cbn. intros [H | [H | [H | [H | []]]]]; discriminate H. }
  split; [exact H1|]. split; [exact H2|].
  split.
  - apply (proj2 (proj1 (ai_assist_kinds "report_draft" Fixture.gst_context) H1)).
    discriminate.
  - exact (proj2 (ai_assist_kinds "Note" Fixture.gst_context) H2).
Defined.

Lemma anomaly_summary_lines_sample :
  exists body : list string,
    ai_assist "anomaly_summary" Fixture.anomaly_context
      = Ok (Content (join_lines ("Anomaly Summary:" :: body))) /\
    body !! 0%nat = Some "- Round sums: variance 12% on Sales" /\
    body !! 1%nat = Some "- None: variance N/A on account" /\
    length body = 2%nat.
Proof.
  destruct (anomaly_summary_lines Fixture.anomaly_context)
    as (body & Hrun & Hlen & _ & Hline).
  exists body. split; [exact Hrun|].
  split; [exact (Hline 0%nat _ eq_refl)|].
  split; [exact (Hline 1%nat _ eq_refl) | exact Hlen].
Defined.

Lemma generate_workflow_never_inserts_sample :
  malformed_id "not-an-id" /\
  ObjectId_parse "65A1B2C3D4E5F60718293A4B" = Some (cd_id Sample.gst_client) /\
  In Sample.gst_client (db_client Fixture.registry) /\
  generate_workflow Fixture.create_document "not-an-id" Fixture.registry
    = (Raise (HTTPException 400 "Invalid id"), Fixture.registry) /\
  exists message : string,
    generate_workflow Fixture.create_document "65A1B2C3D4E5F60718293A4B"
      Fixture.registry = (Raise (TypeError message), Fixture.registry).
Proof.
  assert (H1 : malformed_id "not-an-id") by (left; vm_compute; discriminate).
  assert (H2 : ObjectId_parse "65A1B2C3D4E5F60718293A4B"
               = Some (cd_id Sample.gst_client)) by (vm_compute; reflexivity).
  split; [exact H1|]. split; [exact H2|].
  split; [left; reflexivity|].
  split.
  - exact (proj1 (generate_workflow_never_inserts Fixture.create_document
                    "not-an-id" Fixture.registry) H1).
  - exact (proj1 (proj2 (generate_workflow_never_inserts Fixture.create_document
                           "65A1B2C3D4E5F60718293A4B" Fixture.registry))
             (cd_id Sample.gst_client) H2).
Defined.

Lemma predictive_loop_scores_sample :
  clock_reads Sample.march_2024 Sample.audit_world /\
  document_count Sample.audit_world Sample.gst_client = 2 /\
  overdue_count Sample.march_2024 Sample.audit_world Sample.gst_client = 1 /\
  exists (out : list risk_item) (w' : world) (item : risk_item),
    predictive_loop (db_client Sample.audit_world) [] Sample.audit_world
      = (Ok out, w') /\
    out !! 0%nat = Some item /\
    risk_score item = 95 /\
    risk_level item = "high".
Proof.
  assert (Hnow : clock_reads Sample.march_2024 Sample.audit_world).
  { intros wf s _ _ n d _ _. reflexivity. }
  assert (Hdocs : document_count Sample.audit_world Sample.gst_client = 2)
    by (vm_compute; reflexivity).
  assert (Hover : overdue_count Sample.march_2024 Sample.audit_world
                    Sample.gst_client = 1) by (vm_compute; reflexivity).
  split; [exact Hnow|]. split; [exact Hdocs|]. split; [exact Hover|].
  destruct (predictive_loop_scores Sample.march_2024 (db_client Sample.audit_world)
              Sample.audit_world Hnow)
    as (out & w' & Hrun & _ & Hitems).
  destruct (Hitems 0%nat Sample.gst_client eq_refl)
    as (item & Hitem & _ & _ & _ & _ & _ & Hex).
  destruct (Hex Hdocs Hover) as (_ & _ & Hscore & Hlevel).
  exists out, w', item.
  split; [exact Hrun|]. split; [exact Hitem|].
  split; [exact Hscore | exact Hlevel].
Defined.
